(** * anemoi.datasets.schema: the recipe schema and its validation entry points

    A shallow embedding of [src/anemoi/datasets/schema.py].  The module
    declares pydantic models ([Recipe], [Output], [Build], ...), builds the
    model of the [input] field at run time from the registry of sources and
    filters ([init]), and exposes [expand] and [validate].

    The embedding follows the way pydantic-core evaluates such declarations:
    a type annotation denotes a validator (a function from the raw value to
    a validated value, a list of line errors, or an escaping Python
    exception); a model is a list of fields, each with a validator and an
    optional default; a callable discriminator picks one tagged choice of a
    union.  What the module only imports is a parameter of the development:
    pydantic's scalar validators, [frequency_to_timedelta] and the registry
    [function_schemas]. *)

From stdpp Require Import base strings list gmap.
From Stdlib Require Import ZArith.

Local Open Scope string_scope.
Local Open Scope list_scope.
Set Warnings "-register-all".
Set Default Proof Using "Type".

(** ** Python values *)

(** A configuration document is what a YAML or JSON loader returns.  [VDict]
    keeps the insertion order of the keys, which the input discriminator
    observes.  [VObj] stands for any other Python object (a [datetime], a
    [timedelta], a [typing] alias), known by its class and its [str()]. *)
Inductive value : Type :=
| VNone
| VBool (b : bool)
| VInt (n : Z)
| VFloat (repr : string)
| VStr (s : string)
| VList (items : list value)
| VDict (items : list (string * value))
| VObj (cls repr : string).

Definition dict := list (string * value).

Fixpoint dict_get (k : string) (d : dict) : option value :=
  match d with
  | [] => None
  | (k', v) :: d' => if decide (k' = k) then Some v else dict_get k d'
  end.

Definition keys (d : dict) : list string := d.*1.

(** [d[k] = v] *)
Fixpoint dict_set (k : string) (v : value) (d : dict) : dict :=
  match d with
  | [] => [(k, v)]
  | (k', v') :: d' => if decide (k' = k) then (k, v) :: d' else (k', v') :: dict_set k v d'
  end.

(** [v[k1][k2]...], when every step is a mapping that has the key. *)
Fixpoint lookup_path (path : list string) (v : value) : option value :=
  match path with
  | [] => Some v
  | k :: path' =>
      match v with
      | VDict d => dict_get k d ≫= lookup_path path'
      | _ => None
      end
  end.

(** ** Exceptions and validation results *)

(** Python exceptions other than pydantic's [ValidationError]. *)
Inductive pyexn : Type :=
| IndexError
| AttributeError
| TypeError
| ValueError (msg : string)
| AssertionError (msg : string)
| OtherError (cls : string).

Inductive loc_item : Type :=
| LKey (k : string)
| LIdx (i : nat).

Inductive err_kind : Type :=
| Missing
| ExtraForbidden
| ModelType (cls : string)
| DictType
| ListType
| UnionTagInvalid (tag : string)
| ValueErr (msg : string)
| AssertionErr (msg : string)
| ScalarError (msg : string).

Record line_error : Type := LineError { loc : list loc_item; kind : err_kind }.

Inductive exn : Type :=
| PyExn (e : pyexn)
| ValidationError (errs : list line_error).

(** The three ways a pydantic-core validator ends: a value, line errors
    (collected by the enclosing model into one [ValidationError]), or an
    internal error, that is any other exception, which is re-raised as is. *)
Inductive vres : Type :=
| VOk (v : value)
| VErrors (errs : list line_error)
| VRaise (e : pyexn).

Definition validator := value -> vres.

Definition with_outer_location (l : loc_item) (e : line_error) : line_error :=
  LineError (l :: loc e) (kind e).

Definition outer (l : loc_item) (r : vres) : vres :=
  match r with
  | VErrors errs => VErrors (with_outer_location l <$> errs)
  | _ => r
  end.

(** The end of a validator that collects line errors: the value when there
    is none, the errors otherwise. *)
Definition finish (v : value) (errs : list line_error) : vres :=
  match errs with
  | [] => VOk v
  | _ => VErrors errs
  end.

(** ** Models *)

Inductive extra_behaviour : Type := ExtraIgnore | ExtraForbid.

(** A field: its name, the validator of its annotation and its default;
    [fdefault = None] is the required marker [...]. Defaults are not
    validated. *)
Record field : Type := Field {
  fname : string;
  fvalidate : validator;
  fdefault : option value
}.

Record model : Type := Model {
  mname : string;
  mextra : extra_behaviour;
  mfields : list field
}.

(** One field of a model: a present key is validated, an absent one takes
    the default or reports [Missing].  The result is what the field adds to
    the instance and to the errors, or the exception that escapes. *)
Definition validate_field (f : field) (d : dict) : pyexn + dict * list line_error :=
  match dict_get (fname f) d with
  | Some v =>
      match fvalidate f v with
      | VOk v' => inr ([(fname f, v')], [])
      | VErrors es => inr ([], with_outer_location (LKey (fname f)) <$> es)
      | VRaise e => inl e
      end
  | None =>
      match fdefault f with
      | Some dv => inr ([(fname f, dv)], [])
      | None => inr ([], [LineError [LKey (fname f)] Missing])
      end
  end.

(** The field loop: fields are visited in declaration order; line errors
    accumulate, any other exception stops the loop. *)
Fixpoint validate_fields (fs : list field) (d acc : dict) (errs : list line_error)
  : pyexn + dict * list line_error :=
  match fs with
  | [] => inr (acc, errs)
  | f :: fs' =>
      match validate_field f d with
      | inl e => inl e
      | inr (a, es) => validate_fields fs' d (acc ++ a) (errs ++ es)
      end
  end.

Definition field_names (m : model) : list string := fname <$> mfields m.

(** Keys of the input that no field consumed, in input order. *)
Definition extra_keys (m : model) (d : dict) : list string :=
  filter (fun k => k ∉ field_names m) (keys d).

Definition extra_errors (m : model) (d : dict) : list line_error :=
  match mextra m with
  | ExtraIgnore => []
  | ExtraForbid => (fun k => LineError [LKey k] ExtraForbidden) <$> extra_keys m d
  end.

(** Validation of a mapping against a model.  A validated instance is
    represented by its [model_dump()]: the mapping from field names to
    validated values, in field order. *)
Definition validate_model (m : model) : validator := fun v =>
  match v with
  | VDict d =>
      match validate_fields (mfields m) d [] [] with
      | inl e => VRaise e
      | inr (acc, errs) => finish (VDict acc) (errs ++ extra_errors m d)
      end
  | _ => VErrors [LineError [] (ModelType (mname m))]
  end.

(** [Model()] with no argument, as in the class-level default [Output()]. *)
Definition default_instance (m : model) : value :=
  VDict (omap (fun f => (fname f,.) <$> fdefault f) (mfields m)).

(** ** Containers *)

Fixpoint validate_items (item : validator) (xs : list value) (i : nat)
    (acc : list value) (errs : list line_error) : pyexn + list value * list line_error :=
  match xs with
  | [] => inr (acc, errs)
  | x :: xs' =>
      match item x with
      | VOk v => validate_items item xs' (S i) (acc ++ [v]) errs
      | VErrors es =>
          validate_items item xs' (S i) acc (errs ++ (with_outer_location (LIdx i) <$> es))
      | VRaise e => inl e
      end
  end.

(** [list[T]] *)
Definition list_of (item : validator) : validator := fun v =>
  match v with
  | VList xs =>
      match validate_items item xs 0 [] [] with
      | inl e => VRaise e
      | inr (acc, errs) => finish (VList acc) errs
      end
  | _ => VErrors [LineError [] ListType]
  end.

Definition any : validator := VOk.

(** [dict], also the shape of a step that declares none. *)
Definition py_dict : validator := fun v =>
  match v with
  | VDict d => VOk (VDict d)
  | _ => VErrors [LineError [] DictType]
  end.

(** ** Discriminated unions *)

Definition discriminator := value -> pyexn + string.

(** The table built from the [Tag]s of the choices: each choice is stored
    under its tag in turn, so of two choices with one tag the later stays. *)
Definition tagged_union_choices (cs : list (string * model)) : gmap string model :=
  foldl (fun t c => <[c.1 := c.2]> t) ∅ cs.

Inductive selection : Type :=
| Selected (tag : string) (m : model)
| TagInvalid (tag : string)
| DiscriminatorRaised (e : pyexn).

Definition select (disc : discriminator) (cs : list (string * model)) (v : value) : selection :=
  match disc v with
  | inl e => DiscriminatorRaised e
  | inr tag =>
      match tagged_union_choices cs !! tag with
      | Some m => Selected tag m
      | None => TagInvalid tag
      end
  end.

Definition tagged_union (disc : discriminator) (cs : list (string * model)) : validator :=
  fun v =>
    match select disc cs v with
    | Selected tag m => outer (LKey tag) (validate_model m v)
    | TagInvalid tag => VErrors [LineError [] (UnionTagInvalid tag)]
    | DiscriminatorRaised e => VRaise e
    end.

(** Sequencing of steps that may raise. *)
#[global] Instance pyexn_bind : MBind (sum pyexn) := fun A B k x =>
  match x with
  | inl e => inl e
  | inr a => k a
  end.

(** [Union[tuple(args)]]: [typing] refuses a union of no types. *)
Definition typing_Union {A} (args : list A) : pyexn + list A :=
  match args with
  | [] => inl TypeError
  | _ => inr args
  end.

(** A [field_validator(..., mode="before")]: the function runs on the raw
    value; pydantic turns its [ValueError] and [AssertionError] into line
    errors and lets every other exception through; the annotation's own
    validator then runs on what the function returned. *)
Definition before_validator (f : value -> pyexn + value) (inner : validator) : validator :=
  fun v =>
    match f v with
    | inr v' => inner v'
    | inl (ValueError msg) => VErrors [LineError [] (ValueErr msg)]
    | inl (AssertionError msg) => VErrors [LineError [] (AssertionErr msg)]
    | inl e => VRaise e
    end.

(** ** Class declarations *)

Definition BaseModel : model := Model "BaseModel" ExtraIgnore [].

(** [class name(base)] with a [Config] of its own, or inheriting the
    base's: the fields of the base come first. *)
Definition subclass (name : string) (base : model) (config : option extra_behaviour)
    (fields : list field) : model :=
  Model name (default (mextra base) config) (mfields base ++ fields).

(** [create_model(name, **fields, __base__=base)] *)
Definition create_model (name : string) (base : model) (fields : list field) : model :=
  subclass name base None fields.

(** pydantic's test of a field name: it does not start with an underscore. *)
Definition is_valid_field_name (name : string) : bool :=
  negb (String.prefix "_" name).

(** ** Python operators used by the discriminators *)

Definition is_str (s : string) (v : value) : bool :=
  match v with
  | VStr s' => bool_decide (s' = s)
  | _ => false
  end.

(** [needle in container] for a string needle: key membership on a mapping,
    element membership on a list, substring on a string, [TypeError] on a
    value that is not iterable. *)
Definition py_in (needle : string) (container : value) : pyexn + bool :=
  match container with
  | VDict d => inr (bool_decide (needle ∈ keys d))
  | VList xs => inr (existsb (is_str needle) xs)
  | VStr s => inr (if String.index 0 needle s is Some _ then true else false)
  | _ => inl TypeError
  end.

(** [list(input.keys())[0]] *)
Definition first_key (input : value) : pyexn + string :=
  match input with
  | VDict d =>
      match keys d with
      | k :: _ => inr k
      | [] => inl IndexError
      end
  | _ => inl AttributeError
  end.

(** ** Function bodies: standard output, early return, exceptions *)

Inductive out_line : Type :=
| OutText (s : string)
| OutJson (v : value)             (* print(json.dumps(v, default=str, indent=4)) *)
| OutJsonSchema (cls : model)     (* the same of cls.model_json_schema() *)
| OutErrors (errs : list line_error).

Inductive flow (R A : Type) : Type :=
| Next (a : A)
| Return (r : R)
| Raise (e : exn).
Arguments Next {R A} a.
Arguments Return {R A} r.
Arguments Raise {R A} e.

(** A statement of a function that returns an [R]: what it printed and how
    control leaves it. *)
Definition body (R A : Type) : Type := list out_line * flow R A.

Definition seq {R A B} (s : body R A) (k : A -> body R B) : body R B :=
  match s with
  | (out, Next a) => let '(out', fl) := k a in (out ++ out', fl)
  | (out, Return r) => (out, Return r)
  | (out, Raise e) => (out, Raise e)
  end.

Notation "'do' x <- s ; k" := (seq s (fun x => k))
  (at level 10, x name, s at level 100, k at level 200).

Definition return_ {R} (r : R) : body R Empty_set := ([], Return r).
Definition print {R} (l : out_line) : body R unit := ([l], Next tt).

Definition eval {R A} (x : pyexn + A) : body R A :=
  match x with
  | inl e => ([], Raise (PyExn e))
  | inr a => ([], Next a)
  end.

(** [try: s except ValidationError as e: h e] *)
Definition try_except_ValidationError {R A} (s : body R A)
    (h : list line_error -> body R A) : body R A :=
  match s with
  | (out, Raise (ValidationError errs)) => let '(out', fl) := h errs in (out ++ out', fl)
  | _ => s
  end.

(** A call: the body of a function whose every path ends in [return] or in
    an exception. *)
Definition call {R} (b : body R Empty_set) : list out_line * (exn + R) :=
  match b with
  | (out, Next a) => match a with end
  | (out, Return r) => (out, inr r)
  | (out, Raise e) => (out, inl e)
  end.

(** [model( **config)]: the double star needs a mapping; the keyword
    arguments are then validated against the model. *)
Definition construct {R} (m : model) (config : value) : body R value :=
  match config with
  | VDict _ =>
      match validate_model m config with
      | VOk recipe => ([], Next recipe)
      | VErrors errs => ([], Raise (ValidationError errs))
      | VRaise e => ([], Raise (PyExn e))
      end
  | _ => ([], Raise (PyExn TypeError))
  end.

(** Instances are kept as their dump, see [validate_model]. *)
Definition model_dump (recipe : value) : value := recipe.

(** ** What the module imports *)

(** pydantic's validators for the scalar annotations of the module, for an
    [Enum] given by its member values and for a plain (smart mode) [Union];
    [anemoi.utils.dates.frequency_to_timedelta], which returns a
    [timedelta] or raises; and
    [anemoi.datasets.create.functions.function_schemas(kind)], the names
    registered under [kind] with the annotation each declares, if any. *)
Record imports : Type := Imports {
  pyd_str : validator;
  pyd_int : validator;
  pyd_bool : validator;
  pyd_datetime : validator;
  pyd_timedelta : validator;
  pyd_enum : list string -> validator;
  pyd_union : list validator -> validator;
  frequency_to_timedelta : value -> pyexn + value;
  function_schemas : string -> list (string * option validator)
}.

Section schema.

Variable env : imports.

Definition GroupByEnum : list string := ["monthly"; "daily"; "weekly"; "MMDD"].

Definition Dates : model :=
  subclass "Dates" BaseModel (Some ExtraForbid) [
    Field "missing" (list_of (pyd_datetime env)) (Some VNone);
    Field "group_by" (pyd_union env [pyd_int env; pyd_enum env GroupByEnum])
      (Some (VStr "monthly"))
  ].

Definition parse_frequency (raw : value) : pyexn + value :=
  frequency_to_timedelta env raw.

Definition Interval : model :=
  subclass "Interval" Dates None [
    Field "start" (pyd_datetime env) (Some VNone);
    Field "end" (pyd_datetime env) (Some VNone);
    Field "frequency" (before_validator parse_frequency (pyd_timedelta env)) (Some VNone)
  ].

Definition DateList : model :=
  subclass "DateList" Dates None [
    Field "values" (list_of (pyd_datetime env)) (Some VNone)
  ].

Definition _dates_discriminator (input : value) : pyexn + string :=
  match py_in "values" input with
  | inl e => inl e
  | inr true => inr "values"
  | inr false => inr "interval"
  end.

Definition Step : model := subclass "Step" BaseModel None [].

Definition Output : model :=
  subclass "Output" BaseModel (Some ExtraForbid) [
    Field "statistics_end" (pyd_union env [pyd_datetime env; pyd_int env]) (Some VNone);
    Field "chunking" py_dict (Some VNone);
    Field "dtype" (pyd_str env) (Some (VStr "float32"));
    Field "flatten_grid" (pyd_bool env) (Some (VBool true));
    Field "order_by" (list_of (pyd_str env)) (Some VNone);
    Field "remapping" py_dict (Some VNone);
    Field "statistics" (pyd_union env [py_dict; pyd_str env]) (Some VNone)
  ].

Definition Build : model :=
  subclass "Build" BaseModel (Some ExtraForbid) [
    Field "group_by" (pyd_union env [pyd_int env; pyd_enum env GroupByEnum])
      (Some (VStr "monthly"));
    Field "use_grib_paramid" (pyd_bool env) (Some (VBool false));
    Field "variable_naming" (pyd_str env) (Some VNone)
  ].

Definition Common : model := subclass "Common" BaseModel None [].

Definition Statistics : model :=
  subclass "Statistics" BaseModel (Some ExtraForbid) [
    Field "end" (pyd_union env [pyd_datetime env; pyd_int env]) (Some VNone);
    Field "allow_nans" (list_of (pyd_str env)) (Some (VList []))
  ].

(** The value [Annotated[int, Field(deprecated=msg)]], which the legacy
    fields have as their default: a [typing] alias, whose [str()] shows
    the alias with the [FieldInfo] it carries. *)
Definition deprecated (msg : string) : value :=
  VObj "typing.Annotated"
    ("typing.Annotated[int, FieldInfo(annotation=NoneType, required=True, deprecated='"
     +:+ msg +:+ "')]").

(** The choices of [Recipe.dates], each with its [Tag]. *)
Definition dates_choices : list (string * model) :=
  [("interval", Interval); ("values", DateList)].

Definition Recipe : model :=
  subclass "Recipe" BaseModel (Some ExtraForbid) [
    Field "description" (pyd_str env) (Some VNone);
    Field "name" (pyd_str env) (Some VNone);
    Field "copyright" (pyd_str env)
      (Some (deprecated "This is deprecated. Set `attribution` instead"));
    Field "licence" (pyd_str env) (Some (VStr "unknown"));
    Field "attribution" (pyd_str env) (Some (VStr "unknown"));
    Field "dates" (tagged_union _dates_discriminator dates_choices) None;
    Field "output" (validate_model Output) (Some (default_instance Output));
    Field "build" (validate_model Build) (Some (default_instance Build));
    Field "statistics" (validate_model Statistics) (Some (default_instance Statistics));
    Field "common" (validate_model Common) (Some VNone);
    Field "sources" (validate_model Common) (Some VNone);
    Field "purpose" (pyd_str env) (Some (deprecated "This is deprecated"));
    Field "aliases" (pyd_union env [validate_model Common; list_of any]) (Some VNone);
    Field "flatten_grid" (pyd_bool env) (Some (VBool true));
    Field "ensemble_dimension" (pyd_int env) (Some (VInt 2));
    Field "config_format_version" (pyd_int env) (Some (deprecated "This is deprecated"));
    Field "status" (pyd_str env) (Some (deprecated "This is deprecated"));
    Field "dataset_status" (pyd_str env) (Some (deprecated "This is deprecated"))
  ].

(** ** [init] *)

Definition _input_discriminator (input : value) : pyexn + string :=
  first_key input.

(** The model of one registered step,
    [create_model(name, **{name: (schema, ...)}, __base__=Step)]; a missing
    schema is [dict].  pydantic takes a name that starts with an underscore
    for a private attribute and declares no field for it, so that model has
    no field at all.  A name that [create_model] refuses with an exception
    (a member of the protected namespace of [BaseModel], such as
    model_config) is not a name the registry is taken to hold. *)
Definition step_model (name : string) (schema : option validator) : model :=
  create_model name Step
    (if is_valid_field_name name then [Field name (default py_dict schema) None] else []).

(** One loop over [function_schemas(kind)]: each model with its [Tag]. *)
Definition step_models (kind : string) : list (string * model) :=
  (fun '(name, schema) => (name, step_model name schema)) <$> function_schemas env kind.

(** [Annotated[Union[tuple(union)], Discriminator(_input_discriminator)]]:
    a union of one type is that type itself, which pydantic's
    [Discriminator] wraps again into a union of one choice. *)
Definition discriminated (union : list (string * model)) : pyexn + validator :=
  match typing_Union union with
  | inl e => inl e
  | inr choices => inr (tagged_union _input_discriminator choices)
  end.

Definition init : pyexn + model :=
  let union := [] in
  let union := union ++ step_models "sources" in
  let union := union ++ step_models "filters" in
  simple_steps ← discriminated union;
  let Pipe := create_model "Pipe" BaseModel [Field "pipe" (list_of simple_steps) None] in
  simple_steps_and_pipe ← discriminated (union ++ [("pipe", Pipe)]);
  let Dates :=
    create_model "Dates" BaseModel [
      Field "dates" (validate_model Interval) None;
      Field "join" (list_of simple_steps_and_pipe) None
    ] in
  let union := union ++ [("pipe", Pipe)] in
  let union := union ++ [("dates", Dates)] in
  simple_steps_and_dates ← discriminated (union ++ [("dates", Dates)]);
  let Concat :=
    create_model "Concat" BaseModel [Field "concat" (list_of simple_steps_and_dates) None] in
  let Join :=
    create_model "Join" BaseModel [Field "join" (list_of simple_steps_and_pipe) None] in
  let union := union ++ [("concat", Concat); ("join", Join)] in
  input ← discriminated union;
  let Input := create_model "Input" Recipe [Field "input" input None] in
  inr Input.

(** The values the local names of [init] hold when no step raises, named
    for the statements below: [registered] is [union] after the two loops,
    [input_choices] is [union] at the end. *)
Definition registered : list (string * model) :=
  step_models "sources" ++ step_models "filters".

Definition simple_steps : validator := tagged_union _input_discriminator registered.

Definition Pipe : model :=
  create_model "Pipe" BaseModel [Field "pipe" (list_of simple_steps) None].

Definition simple_steps_and_pipe : validator :=
  tagged_union _input_discriminator (registered ++ [("pipe", Pipe)]).

Definition Dates_join : model :=
  create_model "Dates" BaseModel [
    Field "dates" (validate_model Interval) None;
    Field "join" (list_of simple_steps_and_pipe) None
  ].

Definition simple_steps_and_dates : validator :=
  tagged_union _input_discriminator
    (((registered ++ [("pipe", Pipe)]) ++ [("dates", Dates_join)]) ++ [("dates", Dates_join)]).

Definition Concat : model :=
  create_model "Concat" BaseModel [Field "concat" (list_of simple_steps_and_dates) None].

Definition Join : model :=
  create_model "Join" BaseModel [Field "join" (list_of simple_steps_and_pipe) None].

Definition input_choices : list (string * model) :=
  ((registered ++ [("pipe", Pipe)]) ++ [("dates", Dates_join)])
  ++ [("concat", Concat); ("join", Join)].

Definition Input : model :=
  create_model "Input" Recipe
    [Field "input" (tagged_union _input_discriminator input_choices) None].

(** The names of the registry, and the tags the combinators add to them. *)
Definition registered_names : list string :=
  (function_schemas env "sources" ++ function_schemas env "filters").*1.

Definition combinator_tags : list string := ["pipe"; "dates"; "concat"; "join"].

(** ** [expand] and [validate] *)

Definition expand (config : value) : list out_line * (exn + value) :=
  call (
    do _ <- return_ config;
    do model <- eval init;
    do recipe <- construct model config;
    return_ (model_dump recipe)).

Definition validate (config : value) (schema : bool) : list out_line * (exn + bool) :=
  call (
    do model <- eval init;
    try_except_ValidationError (
      do recipe <- construct model config;
      do _ <- print (OutText "Validation successful!");
      do _ <- (if schema then print (OutJsonSchema model)
               else print (OutJson (model_dump recipe)));
      return_ true)
    (fun e =>
      do _ <- print (OutText "Validation failed:");
      do _ <- print (OutErrors e);
      return_ false)).

End schema.

(** ** Vocabulary of the statements *)

(** A validator rejects a value with the line error [e]: it does not accept;
    when it ends in line errors, [e] is one of them. *)
Definition rejects (e : line_error) (r : vres) : Prop :=
  match r with
  | VOk _ => False
  | VErrors errs => e ∈ errs
  | VRaise _ => True
  end.

(** A run of [validate] fails with the line error [e]: it does not return
    true; when it returns, it returns false after printing the failure
    banner and a [ValidationError] that holds [e].  The other way out is a
    Python exception that escapes [validate]. *)
Definition fails_with (e : line_error) (run : list out_line * (exn + bool)) : Prop :=
  match run with
  | (_, inr true) => False
  | (out, inr false) =>
      exists errs, out = [OutText "Validation failed:"; OutErrors errs] /\ e ∈ errs
  | (_, inl (PyExn _)) => True
  | (_, inl (ValidationError _)) => False
  end.

(** A run of [validate] succeeds, printing the line [l] after the banner. *)
Definition succeeds_printing (l : out_line) (run : list out_line * (exn + bool)) : Prop :=
  run = ([OutText "Validation successful!"; l], inr true).

(** ** A concrete environment

    One choice of what the module imports, for running the model on
    documents: scalars that accept exactly the JSON values of their own
    type, datetimes read from [YYYY-MM-DD] strings, a union that takes the
    first choice that accepts, a few frequencies, and a registry of three
    steps none of which declares a schema. *)
Module reference.

Definition scalar (msg : string) (accepts : value -> option value) : validator :=
  fun v => from_option VOk (VErrors [LineError [] (ScalarError msg)]) (accepts v).

Definition iso_date (s : string) : bool :=
  bool_decide (String.length s = 10%nat)
  && bool_decide (String.substring 4 1 s = "-")
  && bool_decide (String.substring 7 1 s = "-").

Fixpoint first_of (choices : list validator) (errs : list line_error) (v : value) : vres :=
  match choices with
  | [] => VErrors errs
  | c :: choices' =>
      match c v with
      | VErrors es => first_of choices' (errs ++ es) v
      | r => r
      end
  end.

Definition to_timedelta (v : value) : pyexn + value :=
  match v with
  | VStr "1h" | VInt 1 => inr (VObj "datetime.timedelta" "1:00:00")
  | VStr "6h" | VInt 6 => inr (VObj "datetime.timedelta" "6:00:00")
  | VStr "1d" | VInt 24 => inr (VObj "datetime.timedelta" "1 day, 0:00:00")
  | VObj "datetime.timedelta" _ => inr v
  | VStr _ => inl (ValueError "Cannot convert frequency to timedelta")
  | _ => inl TypeError
  end.

Definition registry (kind : string) : list (string * option validator) :=
  if decide (kind = "sources") then [("mars", None); ("grib", None)]
  else if decide (kind = "filters") then [("rename", None)]
  else [].

Definition env : imports := {|
  pyd_str := scalar "string_type" (fun v => if v is VStr _ then Some v else None);
  pyd_int := scalar "int_type" (fun v => if v is VInt _ then Some v else None);
  pyd_bool := scalar "bool_type" (fun v => if v is VBool _ then Some v else None);
  pyd_datetime := scalar "datetime_type" (fun v =>
    match v with
    | VStr s => if iso_date s then Some (VObj "datetime.datetime" (s +:+ " 00:00:00")) else None
    | _ => None
    end);
  pyd_timedelta := scalar "time_delta_type" (fun v =>
    if v is VObj "datetime.timedelta" _ then Some v else None);
  pyd_enum members := scalar "enum" (fun v =>
    match v with
    | VStr s => if bool_decide (s ∈ members) then Some v else None
    | _ => None
    end);
  pyd_union choices := first_of choices [];
  frequency_to_timedelta := to_timedelta;
  function_schemas := registry
|}.

(** The minimal document of the specification, and the same with a step. *)
Definition minimal_dates : value :=
  VDict [("start", VStr "2020-01-01"); ("end", VStr "2020-01-02"); ("frequency", VStr "1h")].

Definition minimal : value := VDict [("dates", minimal_dates)].

Definition mars_step : value := VDict [("mars", VDict [("param", VStr "2t")])].

Definition minimal_with_input : value :=
  VDict [("dates", minimal_dates); ("input", mars_step)].

(** A document whose step object has no key. *)
Definition empty_input : value :=
  VDict [("dates", minimal_dates); ("input", VDict [])].

(** A document with an unknown key at the top level and in each closed
    section, and with a "common" mapping. *)
Definition cluttered : dict :=
  [("dates", VDict [("start", VStr "2020-01-01"); ("calendar", VStr "gregorian")]);
   ("output", VDict [("dtype", VStr "float64"); ("compression", VStr "zstd")]);
   ("build", VDict [("threads", VInt 4)]);
   ("statistics", VDict [("allow_nan", VList [])]);
   ("common", VDict [("anything", VInt 1)]);
   ("owner", VStr "me");
   ("input", mars_step)].

(** The same environment over another registry. *)
Definition with_registry (r : string -> list (string * option validator)) : imports :=
  Imports (pyd_str env) (pyd_int env) (pyd_bool env) (pyd_datetime env) (pyd_timedelta env)
    (pyd_enum env) (pyd_union env) (frequency_to_timedelta env) r.

(** Nothing registered. *)
Definition unregistered : imports := with_registry (fun _ => []).

(** A registry in which the name "empty" is a source without schema and a
    filter that declares a string. *)
Definition registry_twice (kind : string) : list (string * option validator) :=
  if decide (kind = "sources") then [("mars", None); ("empty", None)]
  else if decide (kind = "filters") then [("empty", Some (pyd_str env)); ("rename", None)]
  else [].

Definition twice : imports := with_registry registry_twice.

(** A registry with a step called pipe and a step whose name starts with
    an underscore, neither with a schema. *)
Definition registry_unusual (kind : string) : list (string * option validator) :=
  if decide (kind = "sources") then [("pipe", None); ("_scratch", None); ("mars", None)]
  else [].

Definition unusual : imports := with_registry registry_unusual.

(** The minimal document around a given "input". *)
Definition with_input (input : value) : dict :=
  [("dates", minimal_dates); ("input", input)].

End reference.

(** * Properties *)

(** ** Mappings *)

Lemma dict_get_None k d : dict_get k d = None <-> k ∉ keys d.
Proof.
  induction d as [|[k' v] d IH]; simpl.
  - split; [intros _; apply not_elem_of_nil | done].
  - rewrite not_elem_of_cons. destruct (decide (k' = k)) as [->|Hne].
    + split; [done | intros [[] _]; done].
    + rewrite IH. split; [intros ?; split; [congruence | done] | intros [_ ?]; done].
Qed.

Lemma dict_get_Some k d v : dict_get k d = Some v -> k ∈ keys d.
Proof.
  intros Hget. destruct (decide (k ∈ keys d)) as [|Hn]; [done |].
  apply dict_get_None in Hn. congruence.
Qed.

Lemma dict_get_app_l k d d' v : dict_get k d = Some v -> dict_get k (d ++ d') = Some v.
Proof.
  induction d as [|[k' v'] d IH]; simpl; [done |].
  destruct (decide (k' = k)); auto.
Qed.

Lemma dict_get_app_r k d d' : dict_get k d = None -> dict_get k (d ++ d') = dict_get k d'.
Proof.
  induction d as [|[k' v'] d IH]; simpl; [done |].
  destruct (decide (k' = k)); [done | auto].
Qed.

Lemma dict_get_set k v d k' :
  dict_get k' (dict_set k v d) = if decide (k = k') then Some v else dict_get k' d.
Proof.
  induction d as [|[k0 v0] d IH]; simpl.
  - destruct (decide (k = k')); done.
  - destruct (decide (k0 = k)) as [->|Hne]; simpl.
    + destruct (decide (k = k')); done.
    + destruct (decide (k0 = k')) as [->|Hne'].
      * destruct (decide (k = k')); [congruence | done].
      * apply IH.
Qed.

Lemma keys_dict_set k v v' d : keys (dict_set k v d) = keys (dict_set k v' d).
Proof.
  unfold keys. induction d as [|[k0 v0] d IH]; simpl; [done |].
  destruct (decide (k0 = k)); simpl; [done | by f_equal].
Qed.

(** ** The field loop *)

Lemma validate_field_keys f d a es k :
  validate_field f d = inr (a, es) -> k <> fname f -> dict_get k a = None.
Proof.
  unfold validate_field. intros Hf Hne.
  destruct (dict_get (fname f) d) as [v|].
  - destruct (fvalidate f v); simplify_eq; simpl; [|done].
    destruct (decide (fname f = k)); congruence.
  - destruct (fdefault f); simplify_eq; simpl; [|done].
    destruct (decide (fname f = k)); congruence.
Qed.

(** The loop only appends, to the instance and to the errors. *)
Lemma validate_fields_grows fs d : forall acc errs acc' errs',
  validate_fields fs d acc errs = inr (acc', errs') ->
  (exists a, acc' = acc ++ a) /\ (exists es, errs' = errs ++ es).
Proof.
  induction fs as [|f fs IH]; simpl; intros acc errs acc' errs' Hrun.
  - simplify_eq. split; [exists [] | exists []]; by rewrite app_nil_r.
  - destruct (validate_field f d) as [e|[a es]]; [done |].
    apply IH in Hrun as [[a' ->] [es' ->]].
    split; [exists (a ++ a') | exists (es ++ es')]; by rewrite app_assoc.
Qed.

Lemma validate_fields_keeps_error fs d acc errs acc' errs' e :
  validate_fields fs d acc errs = inr (acc', errs') -> e ∈ errs -> e ∈ errs'.
Proof.
  intros Hrun He. apply validate_fields_grows in Hrun as [_ [es ->]].
  apply elem_of_app. by left.
Qed.

Lemma validate_fields_keeps_value fs d acc errs acc' errs' k v :
  validate_fields fs d acc errs = inr (acc', errs') ->
  dict_get k acc = Some v -> dict_get k acc' = Some v.
Proof.
  intros Hrun Hget. apply validate_fields_grows in Hrun as [[a ->] _].
  by apply dict_get_app_l.
Qed.

(** An error of one field is an error of the loop. *)
Lemma validate_fields_field_error fs d f a es e : forall acc errs acc' errs',
  f ∈ fs -> validate_field f d = inr (a, es) -> e ∈ es ->
  validate_fields fs d acc errs = inr (acc', errs') -> e ∈ errs'.
Proof.
  induction fs as [|f0 fs IH]; intros acc errs acc' errs' Hin Hf He Hrun.
  - by apply elem_of_nil in Hin.
  - simpl in Hrun. apply elem_of_cons in Hin as [<-|Hin].
    + rewrite Hf in Hrun. eapply validate_fields_keeps_error; [done |].
      apply elem_of_app. by right.
    + destruct (validate_field f0 d) as [?|[a0 es0]]; [done |]. by eapply IH.
Qed.

(** An exception of one field ends the loop in an exception. *)
Lemma validate_fields_field_raise fs d f e : forall acc errs,
  f ∈ fs -> validate_field f d = inl e ->
  exists e', validate_fields fs d acc errs = inl e'.
Proof.
  induction fs as [|f0 fs IH]; intros acc errs Hin Hf.
  - by apply elem_of_nil in Hin.
  - simpl. apply elem_of_cons in Hin as [<-|Hin].
    + rewrite Hf. by eexists.
    + destruct (validate_field f0 d) as [e0|[a0 es0]]; [by eexists | by apply IH].
Qed.

(** The value the loop stores for a field that no earlier field shares its
    name with. *)
Lemma validate_fields_value pre f post d k v es : forall acc errs acc' errs',
  k ∉ fname <$> pre -> validate_field f d = inr ([(k, v)], es) ->
  dict_get k acc = None ->
  validate_fields (pre ++ f :: post) d acc errs = inr (acc', errs') ->
  dict_get k acc' = Some v.
Proof.
  induction pre as [|f0 pre IH]; simpl; intros acc errs acc' errs' Hpre Hf Hacc Hrun.
  - rewrite Hf in Hrun. eapply validate_fields_keeps_value; [done |].
    rewrite dict_get_app_r by done. simpl. by rewrite decide_True.
  - apply not_elem_of_cons in Hpre as [Hne Hpre].
    destruct (validate_field f0 d) as [?|[a0 es0]] eqn:Hf0; [done |].
    eapply IH; [done | done | | done].
    rewrite dict_get_app_r by done. by eapply validate_field_keys.
Qed.

(** The loop reads the document through its fields only. *)
Lemma validate_fields_ext fs d d' : forall acc errs,
  (forall f, f ∈ fs -> validate_field f d = validate_field f d') ->
  validate_fields fs d acc errs = validate_fields fs d' acc errs.
Proof.
  induction fs as [|f fs IH]; simpl; intros acc errs Hext; [done |].
  rewrite <- (Hext f) by apply list_elem_of_here.
  destruct (validate_field f d) as [?|[a es]]; [done |].
  apply IH. intros f' Hin. apply Hext. by apply list_elem_of_further.
Qed.

(** ** Models *)

Lemma rejects_finish v errs e : e ∈ errs -> rejects e (finish v errs).
Proof. destruct errs; [intros []%elem_of_nil | done]. Qed.

Lemma rejects_outer l e r : rejects e r -> rejects (with_outer_location l e) (outer l r).
Proof.
  destruct r as [|errs|]; simpl; [done | | done].
  intros He. apply list_elem_of_fmap. by exists e.
Qed.

Lemma validate_model_rejects_field m d f a es e :
  f ∈ mfields m -> validate_field f d = inr (a, es) -> e ∈ es ->
  rejects e (validate_model m (VDict d)).
Proof.
  intros Hin Hf He. unfold validate_model.
  destruct (validate_fields (mfields m) d [] []) as [?|[acc errs]] eqn:Hrun; [done |].
  apply rejects_finish, elem_of_app. left.
  by eapply validate_fields_field_error.
Qed.

Lemma validate_model_raises m d f e :
  f ∈ mfields m -> validate_field f d = inl e ->
  exists e', validate_model m (VDict d) = VRaise e'.
Proof.
  intros Hin Hf. unfold validate_model.
  destruct (validate_fields_field_raise _ d f e [] [] Hin Hf) as [e' ->]. by exists e'.
Qed.

(** A model that forbids extra fields rejects a key it does not declare. *)
Lemma validate_model_rejects_extra m d k :
  mextra m = ExtraForbid -> k ∈ keys d -> k ∉ field_names m ->
  rejects (LineError [LKey k] ExtraForbidden) (validate_model m (VDict d)).
Proof.
  intros Hforbid Hk Hunknown. unfold validate_model.
  destruct (validate_fields (mfields m) d [] []) as [?|[acc errs]]; [done |].
  apply rejects_finish, elem_of_app. right.
  unfold extra_errors. rewrite Hforbid.
  apply list_elem_of_fmap. exists k. split; [done |].
  unfold extra_keys. by apply list_elem_of_filter.
Qed.

(** A required field that the document lacks is reported missing. *)
Lemma validate_model_rejects_missing m d f :
  f ∈ mfields m -> dict_get (fname f) d = None -> fdefault f = None ->
  rejects (LineError [LKey (fname f)] Missing) (validate_model m (VDict d)).
Proof.
  intros Hin Hget Hreq.
  apply (validate_model_rejects_field m d f [] [LineError [LKey (fname f)] Missing]);
    [done | | apply list_elem_of_here].
  unfold validate_field. by rewrite Hget, Hreq.
Qed.

(** What a field rejects, the model rejects under the name of the field. *)
Lemma validate_model_rejects_nested m d f v e :
  f ∈ mfields m -> dict_get (fname f) d = Some v -> rejects e (fvalidate f v) ->
  rejects (with_outer_location (LKey (fname f)) e) (validate_model m (VDict d)).
Proof.
  intros Hin Hget Hrej.
  destruct (fvalidate f v) as [|es|e0] eqn:Hv; simpl in Hrej; [done | |].
  - apply (validate_model_rejects_field m d f []
             (with_outer_location (LKey (fname f)) <$> es)); [done | |].
    + unfold validate_field. by rewrite Hget, Hv.
    + apply list_elem_of_fmap. by exists e.
  - destruct (validate_model_raises m d f e0) as [e' ->]; [done | | done].
    unfold validate_field. by rewrite Hget, Hv.
Qed.

(** In an accepted instance, a field holds what its own step stored. *)
Lemma validate_model_value m d recipe pre f post k v es :
  validate_model m (VDict d) = VOk recipe ->
  mfields m = pre ++ f :: post -> k ∉ fname <$> pre ->
  validate_field f d = inr ([(k, v)], es) ->
  lookup_path [k] recipe = Some v.
Proof.
  unfold validate_model. intros Hok Hfields Hpre Hf.
  destruct (validate_fields (mfields m) d [] []) as [?|[acc errs]] eqn:Hrun; [done |].
  destruct (errs ++ extra_errors m d); simpl in Hok; [|done]. simplify_eq. simpl.
  rewrite Hfields in Hrun.
  by rewrite (validate_fields_value pre f post d k v es [] [] acc errs).
Qed.

(** A model sees a document through its keys and through the steps of its
    fields. *)
Lemma validate_model_ext m d d' :
  keys d = keys d' ->
  (forall f, f ∈ mfields m -> validate_field f d = validate_field f d') ->
  validate_model m (VDict d) = validate_model m (VDict d').
Proof.
  intros Hkeys Hext. unfold validate_model.
  rewrite (validate_fields_ext _ d d') by done.
  unfold extra_errors, extra_keys. by rewrite Hkeys.
Qed.

(** ** Discriminated unions *)

Lemma tagged_union_choices_snoc cs tag m :
  tagged_union_choices (cs ++ [(tag, m)]) = <[tag := m]> (tagged_union_choices cs).
Proof. unfold tagged_union_choices. by rewrite foldl_app. Qed.

Lemma tagged_union_choices_Some cs : forall tag m,
  tagged_union_choices cs !! tag = Some m -> (tag, m) ∈ cs.
Proof.
  induction cs as [|[t c] cs IH] using rev_ind; intros tag m.
  - unfold tagged_union_choices. simpl. by rewrite lookup_empty.
  - rewrite tagged_union_choices_snoc, lookup_insert. case_decide as Heq.
    + intros [= <-]. subst. apply elem_of_app. right. apply list_elem_of_here.
    + intros Hm. apply elem_of_app. left. by apply IH.
Qed.

Lemma tagged_union_choices_None cs : forall tag,
  tagged_union_choices cs !! tag = None <-> tag ∉ cs.*1.
Proof.
  induction cs as [|[t c] cs IH] using rev_ind; intros tag.
  - unfold tagged_union_choices. simpl. rewrite lookup_empty.
    split; [intros _; apply not_elem_of_nil | done].
  - rewrite tagged_union_choices_snoc, lookup_insert, fmap_app, not_elem_of_app.
    simpl. case_decide as Heq.
    + subst. split; [done |]. intros [_ Hn]. exfalso. apply Hn, list_elem_of_here.
    + rewrite IH. split; [|by intros []]. intros Hn. split; [done |].
      intros [->|[]%elem_of_nil]%elem_of_cons. done.
Qed.

Lemma tagged_union_choices_is_Some cs tag :
  tag ∈ cs.*1 -> exists m, tagged_union_choices cs !! tag = Some m /\ (tag, m) ∈ cs.
Proof.
  intros Hin. destruct (tagged_union_choices cs !! tag) as [m|] eqn:Hm.
  - exists m. split; [done |]. by apply tagged_union_choices_Some.
  - by apply tagged_union_choices_None in Hm.
Qed.

Lemma tagged_union_rejects disc cs v tag m e :
  select disc cs v = Selected tag m -> rejects e (validate_model m v) ->
  rejects (with_outer_location (LKey tag) e) (tagged_union disc cs v).
Proof. unfold tagged_union. intros ->. apply rejects_outer. Qed.

(** ** The schema of the module *)

Section properties.

Variable env : imports.

Lemma init_eq :
  init env = match registered env with
             | [] => inl TypeError
             | _ => inr (Input env)
             end.
Proof.
  unfold init, Input, input_choices, Concat, Join, simple_steps_and_dates, Dates_join,
    simple_steps_and_pipe, Pipe, simple_steps.
  change ([] ++ step_models env "sources") with (step_models env "sources").
  change (step_models env "sources" ++ step_models env "filters") with (registered env).
  destruct (registered env) as [|c cs]; reflexivity.
Qed.

(** [validate] by cases on [init] and on the validation of the document. *)
Lemma validate_eq config schema :
  validate env config schema =
  match init env with
  | inl e => ([], inl (PyExn e))
  | inr model =>
      match config with
      | VDict _ =>
          match validate_model model config with
          | VOk recipe =>
              ([OutText "Validation successful!";
                if schema then OutJsonSchema model else OutJson recipe], inr true)
          | VErrors errs => ([OutText "Validation failed:"; OutErrors errs], inr false)
          | VRaise e => ([], inl (PyExn e))
          end
      | _ => ([], inl (PyExn TypeError))
      end
  end.
Proof.
  unfold validate. destruct (init env) as [e|model]; simpl; [done |].
  destruct config; try done. unfold construct.
  destruct (validate_model model _); destruct schema; done.
Qed.

(** What the model of [init] rejects, [validate] fails with. *)
Lemma validate_fails d schema e :
  rejects e (validate_model (Input env) (VDict d)) ->
  fails_with e (validate env (VDict d) schema).
Proof.
  rewrite validate_eq, init_eq. destruct (registered env) as [|? ?]; [done.. |].
  destruct (validate_model _ _) as [|errs|]; simpl; [done | | done].
  intros He. by exists errs.
Qed.

Lemma select_dates dd :
  select _dates_discriminator (dates_choices env) (VDict dd)
  = if bool_decide ("values" ∈ keys dd)
    then Selected "values" (DateList env)
    else Selected "interval" (Interval env).
Proof.
  unfold select, _dates_discriminator, dates_choices, tagged_union_choices. simpl.
  case_bool_decide.
  - by rewrite lookup_insert_eq.
  - by rewrite lookup_insert_ne, lookup_insert_eq.
Qed.

(** The model of a step reads an object through the key of the step: it has
    that one field, or none, and is open to other keys. *)
Lemma step_model_first_key k schema v rest :
  validate_model (step_model k schema) (VDict ((k, v) :: rest))
  = validate_model (step_model k schema) (VDict [(k, v)]).
Proof.
  unfold validate_model, step_model, create_model, subclass.
  destruct (is_valid_field_name k); simpl; [|done].
  unfold validate_field. simpl. by rewrite !decide_True.
Qed.

Lemma select_first_key cs k v rest :
  select _input_discriminator cs (VDict ((k, v) :: rest))
  = match tagged_union_choices cs !! k with
    | Some m => Selected k m
    | None => TagInvalid k
    end.
Proof. reflexivity. Qed.

(** C3: on a mapping, the discriminator of [Recipe.dates] selects the choice
    tagged "values", the model [DateList], exactly when the mapping has the
    key "values", whatever its other keys, and the choice tagged "interval",
    the model [Interval], otherwise; the union validates the mapping against
    the selected model, and the two models differ. *)
Theorem dates_values_key_selects_DateList (dd : dict) :
  select _dates_discriminator (dates_choices env) (VDict dd)
  = (if bool_decide ("values" ∈ keys dd)
     then Selected "values" (DateList env)
     else Selected "interval" (Interval env))
  /\ tagged_union _dates_discriminator (dates_choices env) (VDict dd)
     = (if bool_decide ("values" ∈ keys dd)
        then outer (LKey "values") (validate_model (DateList env) (VDict dd))
        else outer (LKey "interval") (validate_model (Interval env) (VDict dd)))
  /\ DateList env <> Interval env.
Proof.
  split; [apply select_dates | split; [|done]].
  unfold tagged_union. rewrite select_dates. by case_bool_decide.
Qed.

(** C6: a "dates" mapping with both the key "values" and the key "start" is
    resolved to the choice tagged "values", the model [DateList]. *)
Theorem dates_values_and_start_is_DateList (dd : dict) :
  "values" ∈ keys dd -> "start" ∈ keys dd ->
  select _dates_discriminator (dates_choices env) (VDict dd)
  = Selected "values" (DateList env).
Proof. intros Hvalues _. rewrite select_dates. by rewrite bool_decide_eq_true_2. Qed.

(** C7: [expand] returns its argument, prints nothing and raises nothing,
    whatever the registry holds: the statements after the first [return]
    never run. *)
Theorem expand_returns_config (config : value) :
  expand env config = ([], inr config).
Proof. reflexivity. Qed.

(** C9: on a step object with two or more keys the input discriminator does
    not raise and returns the first key; in every union the choice is the
    one a single-key object with that key gets, namely the entry of the tag
    table under the first key; and the model of a registered step validates
    the object as it validates the first key alone. *)
Theorem input_discriminator_takes_first_key
    (cs : list (string * model)) (k k' : string) (v v' : value) (rest : dict) :
  _input_discriminator (VDict ((k, v) :: (k', v') :: rest)) = inr k
  /\ select _input_discriminator cs (VDict ((k, v) :: (k', v') :: rest))
     = select _input_discriminator cs (VDict [(k, v)])
  /\ select _input_discriminator cs (VDict ((k, v) :: (k', v') :: rest))
     = match tagged_union_choices cs !! k with
       | Some m => Selected k m
       | None => TagInvalid k
       end
  /\ forall schema,
       validate_model (step_model k schema) (VDict ((k, v) :: (k', v') :: rest))
       = validate_model (step_model k schema) (VDict [(k, v)]).
Proof.
  repeat split. intros schema. apply step_model_first_key.
Qed.

(** *** Rejections under a field of the model of [init] *)

Ltac in_fields :=
  unfold Input, Recipe, create_model, subclass; simpl;
  repeat first [apply list_elem_of_here | apply list_elem_of_further].

Lemma Input_forbids_extra : mextra (Input env) = ExtraForbid.
Proof. reflexivity. Qed.

Lemma validate_fails_nested f d v e schema :
  f ∈ mfields (Input env) -> dict_get (fname f) d = Some v -> rejects e (fvalidate f v) ->
  fails_with (with_outer_location (LKey (fname f)) e) (validate env (VDict d) schema).
Proof. intros Hin Hget Hrej. by eapply validate_fails, validate_model_rejects_nested. Qed.

(** An unknown key of a section that is a closed model. *)
Lemma section_unknown_fails name m d sd k schema :
  Field name (validate_model m) (Some (default_instance m)) ∈ mfields (Input env) ->
  mextra m = ExtraForbid ->
  dict_get name d = Some (VDict sd) -> k ∈ keys sd -> k ∉ field_names m ->
  fails_with (LineError [LKey name; LKey k] ExtraForbidden) (validate env (VDict d) schema).
Proof.
  intros Hin Hforbid Hget Hk Hunknown.
  apply (validate_fails_nested _ d (VDict sd) (LineError [LKey k] ExtraForbidden) schema Hin);
    [done |].
  by apply validate_model_rejects_extra.
Qed.

(** An unknown key of the "dates" mapping, for the model the discriminator
    selects. *)
Lemma dates_unknown_fails d dd tag m k schema :
  dict_get "dates" d = Some (VDict dd) ->
  select _dates_discriminator (dates_choices env) (VDict dd) = Selected tag m ->
  k ∈ keys dd -> k ∉ field_names m ->
  fails_with (LineError [LKey "dates"; LKey tag; LKey k] ExtraForbidden)
    (validate env (VDict d) schema).
Proof.
  intros Hget Hsel Hk Hunknown.
  apply (validate_fails_nested
           (Field "dates" (tagged_union _dates_discriminator (dates_choices env)) None)
           d (VDict dd) (LineError [LKey tag; LKey k] ExtraForbidden) schema);
    [in_fields | done |].
  apply (tagged_union_rejects _ _ _ tag m (LineError [LKey k] ExtraForbidden) Hsel).
  apply validate_model_rejects_extra; [|done..].
  rewrite select_dates in Hsel. by case_bool_decide; simplify_eq.
Qed.

Lemma Common_accepts cd : validate_model Common (VDict cd) = VOk (VDict []).
Proof. reflexivity. Qed.

Lemma common_field f :
  f ∈ mfields (Input env) -> fname f = "common" -> fvalidate f = validate_model Common.
Proof.
  unfold Input, Recipe, create_model, subclass. simpl.
  rewrite !elem_of_cons, elem_of_nil. intros Hin Hname.
  destruct_or!; subst; simpl in *; done.
Qed.

(** C4: [validate] fails with an extra-field error on every document that
    has a key the model of [init] does not declare, or whose "output",
    "build" or "statistics" mapping has a key that [Output], [Build] or
    [Statistics] does not declare, or whose "dates" mapping has a key that
    the model selected for it does not declare.  The keys of a "common"
    mapping are all accepted: [Common] accepts every mapping, and the run of
    [validate] does not depend on what the "common" mapping holds. *)
Theorem closed_sections_and_open_common (d : dict) (schema : bool) :
  (forall k, k ∈ keys d -> k ∉ field_names (Input env) ->
     fails_with (LineError [LKey k] ExtraForbidden) (validate env (VDict d) schema))
  /\ (forall sd k, dict_get "output" d = Some (VDict sd) ->
        k ∈ keys sd -> k ∉ field_names (Output env) ->
        fails_with (LineError [LKey "output"; LKey k] ExtraForbidden)
          (validate env (VDict d) schema))
  /\ (forall sd k, dict_get "build" d = Some (VDict sd) ->
        k ∈ keys sd -> k ∉ field_names (Build env) ->
        fails_with (LineError [LKey "build"; LKey k] ExtraForbidden)
          (validate env (VDict d) schema))
  /\ (forall sd k, dict_get "statistics" d = Some (VDict sd) ->
        k ∈ keys sd -> k ∉ field_names (Statistics env) ->
        fails_with (LineError [LKey "statistics"; LKey k] ExtraForbidden)
          (validate env (VDict d) schema))
  /\ (forall dd tag m k, dict_get "dates" d = Some (VDict dd) ->
        select _dates_discriminator (dates_choices env) (VDict dd) = Selected tag m ->
        k ∈ keys dd -> k ∉ field_names m ->
        fails_with (LineError [LKey "dates"; LKey tag; LKey k] ExtraForbidden)
          (validate env (VDict d) schema))
  /\ (forall cd, validate_model Common (VDict cd) = VOk (VDict []))
  /\ (forall cd cd',
        validate env (VDict (dict_set "common" (VDict cd) d)) schema
        = validate env (VDict (dict_set "common" (VDict cd') d)) schema).
Proof.
  split; [|split; [|split; [|split; [|split; [|split]]]]].
  - intros k Hk Hunknown.
    by apply validate_fails, validate_model_rejects_extra.
  - intros sd k. apply section_unknown_fails; [in_fields | done].
  - intros sd k. apply section_unknown_fails; [in_fields | done].
  - intros sd k. apply section_unknown_fails; [in_fields | done].
  - intros dd tag m k. apply dates_unknown_fails.
  - apply Common_accepts.
  - intros cd cd'. rewrite !validate_eq, init_eq.
    destruct (registered env) as [|? ?]; [done.. |].
    rewrite (validate_model_ext (Input env) _ (dict_set "common" (VDict cd') d)); [done | |].
    + apply keys_dict_set.
    + intros f Hin. unfold validate_field. rewrite !dict_get_set.
      case_decide as Hname; [|done].
      by rewrite (common_field f Hin).
Qed.

(** C10: a "dates" mapping that has the key "values" and a key outside
    values, missing and group_by makes [validate] fail: the discriminator
    selects [DateList], whose fields are missing, group_by and values and
    which forbids extra fields, so the key is reported as an extra field. *)
Theorem dates_values_with_foreign_key_fails (d dd : dict) (k : string) (schema : bool) :
  dict_get "dates" d = Some (VDict dd) ->
  "values" ∈ keys dd -> k ∈ keys dd -> k ∉ ["values"; "missing"; "group_by"] ->
  select _dates_discriminator (dates_choices env) (VDict dd) = Selected "values" (DateList env)
  /\ field_names (DateList env) = ["missing"; "group_by"; "values"]
  /\ mextra (DateList env) = ExtraForbid
  /\ fails_with (LineError [LKey "dates"; LKey "values"; LKey k] ExtraForbidden)
       (validate env (VDict d) schema).
Proof.
  intros Hget Hvalues Hk Hforeign.
  assert (select _dates_discriminator (dates_choices env) (VDict dd)
          = Selected "values" (DateList env)) as Hsel.
  { rewrite select_dates. by rewrite bool_decide_eq_true_2. }
  repeat split; [done |].
  apply (dates_unknown_fails d dd "values" (DateList env) k schema Hget Hsel Hk).
  change (k ∉ ["missing"; "group_by"; "values"]).
  rewrite !not_elem_of_cons in Hforeign |- *. tauto.
Qed.

(** *** Required input and defaults *)

Lemma lookup_path_cons k path v w :
  lookup_path [k] v = Some w -> lookup_path (k :: path) v = lookup_path path w.
Proof.
  destruct v; simpl; try done.
  destruct (dict_get k items); simpl; [|done]. by intros [= ->].
Qed.

Lemma missing_input_fails d schema :
  dict_get "input" d = None ->
  fails_with (LineError [LKey "input"] Missing) (validate env (VDict d) schema).
Proof.
  intros Hget.
  apply validate_fails,
    (validate_model_rejects_missing (Input env) d
       (Field "input" (tagged_union _input_discriminator (input_choices env)) None));
    [in_fields | done | done].
Qed.

Ltac not_in_names :=
  let H := fresh in
  intros H; simpl in H; rewrite !elem_of_cons, elem_of_nil in H; destruct_or!; done.

(** An accepted document without an "output" key gets [Output()]. *)
Lemma default_output d recipe :
  validate_model (Input env) (VDict d) = VOk recipe -> dict_get "output" d = None ->
  lookup_path ["output"] recipe = Some (default_instance (Output env)).
Proof.
  intros Hok Hget.
  apply (validate_model_value (Input env) d recipe
           (take 6 (mfields (Input env)))
           (Field "output" (validate_model (Output env)) (Some (default_instance (Output env))))
           (drop 7 (mfields (Input env))) "output" _ [] Hok);
    [reflexivity | not_in_names |].
  unfold validate_field. simpl fname. by rewrite Hget.
Qed.

(** An accepted document without a "build" key gets [Build()]. *)
Lemma default_build d recipe :
  validate_model (Input env) (VDict d) = VOk recipe -> dict_get "build" d = None ->
  lookup_path ["build"] recipe = Some (default_instance (Build env)).
Proof.
  intros Hok Hget.
  apply (validate_model_value (Input env) d recipe
           (take 7 (mfields (Input env)))
           (Field "build" (validate_model (Build env)) (Some (default_instance (Build env))))
           (drop 8 (mfields (Input env))) "build" _ [] Hok);
    [reflexivity | not_in_names |].
  unfold validate_field. simpl fname. by rewrite Hget.
Qed.

(** C1, amended: on the minimal document, which has no "input", [validate]
    does not return true; it fails with "input" reported missing, since the
    model of [init] requires that field.  On a document without "output"
    and "build" keys for which [validate] returns true, the line printed
    after the banner is the normalized dump, in which output.dtype is
    "float32" and build.group_by is "monthly". *)
Theorem minimal_document_requires_input :
  (forall schema,
     fails_with (LineError [LKey "input"] Missing) (validate env reference.minimal schema))
  /\ (forall d,
        dict_get "output" d = None -> dict_get "build" d = None ->
        snd (validate env (VDict d) false) = inr true ->
        exists recipe,
          validate env (VDict d) false
          = ([OutText "Validation successful!"; OutJson recipe], inr true)
          /\ lookup_path ["output"; "dtype"] recipe = Some (VStr "float32")
          /\ lookup_path ["build"; "group_by"] recipe = Some (VStr "monthly")).
Proof.
  split.
  - intros schema. by apply missing_input_fails.
  - intros d Hout Hbuild. rewrite validate_eq, init_eq.
    destruct (registered env) as [|? ?]; [done.. |].
    destruct (validate_model (Input env) (VDict d)) as [recipe| |] eqn:Hok; [|done..].
    intros _. exists recipe. split; [done |]. split.
    + by rewrite (lookup_path_cons _ _ _ _ (default_output d recipe Hok Hout)).
    + by rewrite (lookup_path_cons _ _ _ _ (default_build d recipe Hok Hbuild)).
Qed.

(** *** Selection of a step *)

Lemma registered_tags : (registered env).*1 = registered_names env.
Proof.
  unfold registered, registered_names, step_models.
  rewrite !fmap_app, <- !list_fmap_compose.
  f_equal; apply list_fmap_ext; by intros ? [name schema] ?.
Qed.

Lemma registered_step k m :
  (k, m) ∈ registered env ->
  exists schema,
    m = step_model k schema
    /\ (k, schema) ∈ function_schemas env "sources" ++ function_schemas env "filters".
Proof.
  unfold registered, step_models. rewrite <- fmap_app.
  intros [[name schema] [Heq Hin]]%list_elem_of_fmap. simplify_eq. by exists schema.
Qed.

(** A registered name selects, among the registered steps, a model made
    for that name. *)
Lemma registered_lookup k :
  k ∈ registered_names env ->
  exists schema,
    (k, schema) ∈ function_schemas env "sources" ++ function_schemas env "filters"
    /\ tagged_union_choices (registered env) !! k = Some (step_model k schema).
Proof.
  rewrite <- registered_tags. intros [m [Hm Hin]]%tagged_union_choices_is_Some.
  apply registered_step in Hin as [schema [-> Hin]]. by exists schema.
Qed.

(** The combinators only add their own four tags to the table. *)
Lemma input_choices_lookup k :
  k ∉ combinator_tags ->
  tagged_union_choices (input_choices env) !! k = tagged_union_choices (registered env) !! k.
Proof.
  unfold combinator_tags, input_choices. rewrite !not_elem_of_cons. intros (? & ? & ? & ? & _).
  change [("concat", Concat env); ("join", Join env)]
    with ([("concat", Concat env)] ++ [("join", Join env)]).
  rewrite app_assoc, !tagged_union_choices_snoc.
  by rewrite !lookup_insert_ne.
Qed.

(** C5, amended: for a step object with the single key [k].  If [k] is a
    registered name, the union of the simple steps selects a model generated
    for [k], and so does the union of the "input" field provided [k] is not
    one of the tags pipe, dates, concat and join, under which the
    combinators are stored.  If [k] is neither a registered name nor
    one of these tags, the union of the "input" field ends in the single
    line error for an invalid tag, and [validate] fails with it on every
    document whose "input" is that object. *)
Theorem single_key_selects_registered_step (k : string) (v : value) :
  (k ∈ registered_names env ->
     exists schema,
       (k, schema) ∈ function_schemas env "sources" ++ function_schemas env "filters"
       /\ select _input_discriminator (registered env) (VDict [(k, v)])
          = Selected k (step_model k schema)
       /\ (k ∉ combinator_tags ->
           select _input_discriminator (input_choices env) (VDict [(k, v)])
           = Selected k (step_model k schema)))
  /\ (k ∉ registered_names env -> k ∉ combinator_tags ->
        tagged_union _input_discriminator (input_choices env) (VDict [(k, v)])
        = VErrors [LineError [] (UnionTagInvalid k)]
        /\ forall d schema,
             dict_get "input" d = Some (VDict [(k, v)]) ->
             fails_with (LineError [LKey "input"] (UnionTagInvalid k))
               (validate env (VDict d) schema)).
Proof.
  split.
  - intros [schema [Hin Hlookup]]%registered_lookup. exists schema.
    split; [done |]. rewrite !select_first_key. split.
    + by rewrite Hlookup.
    + intros Htags. by rewrite input_choices_lookup, Hlookup.
  - intros Hunreg Htags.
    assert (tagged_union _input_discriminator (input_choices env) (VDict [(k, v)])
            = VErrors [LineError [] (UnionTagInvalid k)]) as Hunion.
    { unfold tagged_union. rewrite select_first_key, input_choices_lookup by done.
      rewrite <- registered_tags in Hunreg.
      by apply tagged_union_choices_None in Hunreg as ->. }
    split; [done |]. intros d schema Hget.
    apply (validate_fails_nested
             (Field "input" (tagged_union _input_discriminator (input_choices env)) None)
             d (VDict [(k, v)]) (LineError [] (UnionTagInvalid k)) schema);
      [in_fields | done |].
    simpl fvalidate. rewrite Hunion. apply list_elem_of_here.
Qed.

(** *** The two printing modes *)

(** C8: when [validate] returns true on a document, in either mode, the
    model of [init] accepts the document; with the schema flag set the run
    prints the banner and the JSON schema of that model, and no dump; with
    the flag unset it prints the banner and the dump of the instance. *)
Theorem schema_flag_selects_printed_line (config : value) :
  snd (validate env config true) = inr true \/ snd (validate env config false) = inr true ->
  exists recipe,
    validate_model (Input env) config = VOk recipe
    /\ succeeds_printing (OutJsonSchema (Input env)) (validate env config true)
    /\ succeeds_printing (OutJson (model_dump recipe)) (validate env config false)
    /\ forall v, OutJson v ∉ fst (validate env config true).
Proof.
  unfold succeeds_printing. rewrite !validate_eq, init_eq.
  destruct (registered env) as [|? ?]; [by intros [|].. |].
  destruct config; try by intros [|].
  destruct (validate_model (Input env) (VDict items)) as [recipe| |]; try by intros [|].
  intros _. exists recipe. repeat split. simpl.
  intros v. rewrite !elem_of_cons, elem_of_nil. intros [|[|]]; done.
Qed.

(** *** An input object without keys *)

(** Whatever else a document holds, an empty mapping under "input" makes an
    exception other than [ValidationError] leave [validate]. *)
Lemma empty_input_raises d schema :
  dict_get "input" d = Some (VDict []) ->
  exists e, validate env (VDict d) schema = ([], inl (PyExn e)).
Proof.
  intros Hget. rewrite validate_eq, init_eq.
  destruct (registered env) as [|? ?]; [by eexists.. |].
  destruct (validate_model_raises (Input env) d
              (Field "input" (tagged_union _input_discriminator (input_choices env)) None)
              IndexError) as [e' ->]; [in_fields | | by eexists].
  unfold validate_field. simpl fname. by rewrite Hget.
Qed.

End properties.

(** ** The module on concrete documents *)

(** C1, as stated, fails: on the minimal document [validate] returns false
    and reports the required field "input" missing. *)
Lemma minimal_document_is_rejected :
  validate reference.env reference.minimal false
  = ([OutText "Validation failed:"; OutErrors [LineError [LKey "input"] Missing]], inr false).
Proof. vm_compute. reflexivity. Qed.

Lemma minimal_document_requires_input_witness :
  dict_get "output" [("dates", reference.minimal_dates); ("input", reference.mars_step)] = None
  /\ dict_get "build" [("dates", reference.minimal_dates); ("input", reference.mars_step)] = None
  /\ snd (validate reference.env reference.minimal_with_input false) = inr true
  /\ exists recipe,
       validate reference.env reference.minimal_with_input false
       = ([OutText "Validation successful!"; OutJson recipe], inr true)
       /\ lookup_path ["output"; "dtype"] recipe = Some (VStr "float32")
       /\ lookup_path ["build"; "group_by"] recipe = Some (VStr "monthly").
Proof.
  split; [reflexivity |]. split; [reflexivity |]. split; [vm_compute; reflexivity |].
  apply (proj2 (minimal_document_requires_input reference.env)
           [("dates", reference.minimal_dates); ("input", reference.mars_step)]);
    [reflexivity | reflexivity | vm_compute; reflexivity].
Defined.

(** C2 fails on the code: on a document whose "input" is an empty mapping,
    the [IndexError] of the input discriminator leaves [validate], in
    either mode, before anything is printed. *)
Theorem validate_raises_on_empty_input :
  validate reference.env reference.empty_input false = ([], inl (PyExn IndexError))
  /\ validate reference.env reference.empty_input true = ([], inl (PyExn IndexError)).
Proof. split; vm_compute; reflexivity. Qed.

Lemma closed_sections_and_open_common_witness :
  fails_with (LineError [LKey "owner"] ExtraForbidden)
    (validate reference.env (VDict reference.cluttered) false)
  /\ fails_with (LineError [LKey "output"; LKey "compression"] ExtraForbidden)
       (validate reference.env (VDict reference.cluttered) false)
  /\ fails_with (LineError [LKey "build"; LKey "threads"] ExtraForbidden)
       (validate reference.env (VDict reference.cluttered) false)
  /\ fails_with (LineError [LKey "statistics"; LKey "allow_nan"] ExtraForbidden)
       (validate reference.env (VDict reference.cluttered) false)
  /\ fails_with (LineError [LKey "dates"; LKey "interval"; LKey "calendar"] ExtraForbidden)
       (validate reference.env (VDict reference.cluttered) false)
  /\ validate reference.env
       (VDict (dict_set "common" (VDict [("anything", VInt 1)]) reference.cluttered)) false
     = validate reference.env (VDict (dict_set "common" (VDict []) reference.cluttered)) false.
Proof.
  destruct (closed_sections_and_open_common reference.env reference.cluttered false)
    as (Htop & Houtput & Hbuild & Hstatistics & Hdates & _ & Hcommon).
  split; [apply Htop; compute_done |].
  split; [eapply Houtput; [reflexivity | compute_done..] |].
  split; [eapply Hbuild; [reflexivity | compute_done..] |].
  split; [eapply Hstatistics; [reflexivity | compute_done..] |].
  split; [eapply Hdates; [reflexivity | vm_compute; reflexivity | compute_done..] |].
  apply Hcommon.
Defined.

Lemma single_key_selects_registered_step_witness :
  (exists schema,
     ("mars", schema) ∈ reference.registry "sources" ++ reference.registry "filters"
     /\ select _input_discriminator (input_choices reference.env) (VDict [("mars", VNone)])
        = Selected "mars" (step_model "mars" schema))
  /\ tagged_union _input_discriminator (input_choices reference.env)
       (VDict [("marsh", VNone)])
     = VErrors [LineError [] (UnionTagInvalid "marsh")].
Proof.
  split.
  - destruct (proj1 (single_key_selects_registered_step reference.env "mars" VNone))
      as (schema & Hin & _ & Hsel); [compute_done |].
    exists schema. split; [exact Hin | apply Hsel; compute_done].
  - apply (proj2 (single_key_selects_registered_step reference.env "marsh" VNone));
      compute_done.
Defined.

(** C5, as stated, fails: with a step registered under the name pipe, an
    "input" object whose single key is pipe does not select the model
    generated for that step.  The combinator [Pipe], stored later under the
    same tag, is selected; the mapping that the generated model accepts is
    refused as not being a list, and [validate] returns false. *)
Lemma registered_pipe_is_shadowed :
  "pipe" ∈ registered_names reference.unusual
  /\ select _input_discriminator (input_choices reference.unusual)
       (VDict [("pipe", VDict [("param", VStr "2t")])])
     = Selected "pipe" (Pipe reference.unusual)
  /\ Pipe reference.unusual <> step_model "pipe" None
  /\ validate_model (step_model "pipe" None) (VDict [("pipe", VDict [("param", VStr "2t")])])
     = VOk (VDict [("pipe", VDict [("param", VStr "2t")])])
  /\ validate reference.unusual
       (VDict (reference.with_input (VDict [("pipe", VDict [("param", VStr "2t")])]))) false
     = ([OutText "Validation failed:";
         OutErrors [LineError [LKey "input"; LKey "pipe"; LKey "pipe"] ListType]],
        inr false).
Proof.
  split; [compute_done |]. split; [vm_compute; reflexivity |].
  split; [discriminate |]. split; vm_compute; reflexivity.
Qed.

Lemma dates_values_and_start_is_DateList_witness :
  "values" ∈ keys [("values", VList []); ("start", VStr "2020-01-01")]
  /\ "start" ∈ keys [("values", VList []); ("start", VStr "2020-01-01")]
  /\ select _dates_discriminator (dates_choices reference.env)
       (VDict [("values", VList []); ("start", VStr "2020-01-01")])
     = Selected "values" (DateList reference.env).
Proof.
  split; [compute_done |]. split; [compute_done |].
  apply dates_values_and_start_is_DateList; compute_done.
Defined.

Lemma schema_flag_selects_printed_line_witness :
  snd (validate reference.env reference.minimal_with_input false) = inr true
  /\ exists recipe,
       validate_model (Input reference.env) reference.minimal_with_input = VOk recipe
       /\ succeeds_printing (OutJsonSchema (Input reference.env))
            (validate reference.env reference.minimal_with_input true)
       /\ succeeds_printing (OutJson (model_dump recipe))
            (validate reference.env reference.minimal_with_input false)
       /\ forall v, OutJson v ∉ fst (validate reference.env reference.minimal_with_input true).
Proof.
  split; [vm_compute; reflexivity |].
  apply schema_flag_selects_printed_line. right. vm_compute. reflexivity.
Defined.

Lemma dates_values_with_foreign_key_fails_witness :
  fails_with (LineError [LKey "dates"; LKey "values"; LKey "start"] ExtraForbidden)
    (validate reference.env
       (VDict [("dates", VDict [("values", VList []); ("start", VStr "2020-01-01")]);
               ("input", reference.mars_step)]) false).
Proof.
  apply (dates_values_with_foreign_key_fails reference.env
           [("dates", VDict [("values", VList []); ("start", VStr "2020-01-01")]);
            ("input", reference.mars_step)]
           [("values", VList []); ("start", VStr "2020-01-01")] "start" false);
    [reflexivity | compute_done..].
Defined.

(** * Further properties of the module *)

Section outcomes.

Variable env : imports.

(** X1: a run of [validate] ends in one of three ways: an exception other
    than [ValidationError] escapes and nothing was printed; or the model of
    [init] reports line errors, the run prints the failure banner and those
    errors and returns false; or the model accepts the document, the run
    prints the success banner and one more line and returns true.  A
    [ValidationError] never reaches the caller. *)
Theorem validate_ends_in_three_ways (config : value) (schema : bool) :
  ((exists e, validate env config schema = ([], inl (PyExn e)))
   \/ (exists errs,
         validate_model (Input env) config = VErrors errs
         /\ validate env config schema
            = ([OutText "Validation failed:"; OutErrors errs], inr false))
   \/ (exists recipe,
         validate_model (Input env) config = VOk recipe
         /\ validate env config schema
            = ([OutText "Validation successful!";
                if schema then OutJsonSchema (Input env) else OutJson recipe], inr true)))
  /\ forall errs, snd (validate env config schema) <> inl (ValidationError errs).
Proof.
  rewrite validate_eq, init_eq.
  destruct (registered env) as [|? ?]; [split; [left; by eexists | done].. |].
  destruct config; try (split; [left; by eexists | done]).
  destruct (validate_model (Input env) (VDict items)) as [recipe|errs|e].
  - split; [right; right; by exists recipe | done].
  - split; [right; left; by exists errs | done].
  - split; [left; by eexists | done].
Qed.

(** X2: the schema flag does not change what [validate] returns or raises,
    and a run that does not return true is the same run for both values of
    the flag. *)
Theorem schema_flag_only_changes_success_line (config : value) :
  snd (validate env config true) = snd (validate env config false)
  /\ (snd (validate env config false) <> inr true ->
      validate env config true = validate env config false).
Proof.
  rewrite !validate_eq, init_eq.
  destruct (registered env) as [|? ?]; [done.. |].
  destruct config; try done.
  by destruct (validate_model (Input env) (VDict items)).
Qed.

(** X3: on a document that is not a mapping, [validate] raises [TypeError]
    and prints nothing, whatever the registry holds. *)
Theorem validate_needs_a_mapping (config : value) (schema : bool) :
  (forall d, config <> VDict d) ->
  validate env config schema = ([], inl (PyExn TypeError)).
Proof.
  intros Hnot. rewrite validate_eq, init_eq.
  destruct (registered env) as [|? ?]; [done.. |].
  destruct config; try done. by destruct (Hnot items).
Qed.

(** X4: with no source and no filter registered, [init] raises [TypeError]
    and so does [validate] on every document, before anything is printed. *)
Theorem validate_needs_a_registry (config : value) (schema : bool) :
  function_schemas env "sources" = [] -> function_schemas env "filters" = [] ->
  init env = inl TypeError
  /\ validate env config schema = ([], inl (PyExn TypeError)).
Proof.
  intros Hsources Hfilters.
  assert (init env = inl TypeError) as Hinit.
  { rewrite init_eq. unfold registered, step_models. by rewrite Hsources, Hfilters. }
  split; [done |]. by rewrite validate_eq, Hinit.
Qed.

(** X5: a document without the key "dates" is rejected: [validate] fails
    with "dates" reported missing. *)
Theorem dates_is_required (d : dict) (schema : bool) :
  dict_get "dates" d = None ->
  fails_with (LineError [LKey "dates"] Missing) (validate env (VDict d) schema).
Proof.
  intros Hget.
  apply validate_fails,
    (validate_model_rejects_missing (Input env) d
       (Field "dates" (tagged_union _dates_discriminator (dates_choices env)) None));
    [|done..].
  unfold Input, Recipe, create_model, subclass; simpl;
    repeat first [apply list_elem_of_here | apply list_elem_of_further].
Qed.

End outcomes.

(** ** Values the discriminators are not written for *)

Ltac field_of_Input :=
  unfold Input, Recipe, create_model, subclass; simpl;
  repeat first [apply list_elem_of_here | apply list_elem_of_further].

Section discriminators.

Variable env : imports.

(** An exception of one field of the model of [init] leaves [validate]. *)
Lemma validate_raises_at f d v e0 schema :
  f ∈ mfields (Input env) -> dict_get (fname f) d = Some v -> fvalidate f v = VRaise e0 ->
  exists e, validate env (VDict d) schema = ([], inl (PyExn e)).
Proof.
  intros Hin Hget Hraise. rewrite validate_eq, init_eq.
  destruct (registered env) as [|? ?]; [by eexists.. |].
  destruct (validate_model_raises (Input env) d f e0) as [e' ->]; [done | | by eexists].
  unfold validate_field. by rewrite Hget, Hraise.
Qed.

Lemma tagged_union_raises disc cs v tag m e :
  select disc cs v = Selected tag m -> validate_model m v = VRaise e ->
  tagged_union disc cs v = VRaise e.
Proof. unfold tagged_union. by intros -> ->. Qed.

Lemma substring_after pre word post :
  String.substring (String.length pre) (String.length word) (pre +:+ word +:+ post) = word.
Proof.
  induction pre as [|c pre IH]; simpl; [|done].
  induction word as [|c word IH]; simpl; [by destruct post | by f_equal].
Qed.

Lemma index_of_infix pre word post :
  word <> "" -> String.index 0 word (pre +:+ word +:+ post) <> None.
Proof.
  intros Hword Hnone.
  apply (String.index_correct3 0 (String.length pre)) in Hnone; [|done | lia].
  by rewrite substring_after in Hnone.
Qed.

(** X6: a "dates" value that is None, a boolean or a number is not
    rejected with a line error: the membership test of the dates
    discriminator raises, and the exception leaves [validate] before
    anything is printed. *)
Theorem scalar_dates_raises (d : dict) (v : value) (schema : bool) :
  dict_get "dates" d = Some v ->
  match v with VNone | VBool _ | VInt _ | VFloat _ => True | _ => False end ->
  _dates_discriminator v = inl TypeError
  /\ exists e, validate env (VDict d) schema = ([], inl (PyExn e)).
Proof.
  intros Hget Hscalar.
  assert (_dates_discriminator v = inl TypeError) as Hdisc by (by destruct v).
  split; [done |].
  apply (validate_raises_at
           (Field "dates" (tagged_union _dates_discriminator (dates_choices env)) None)
           d v TypeError schema); [field_of_Input | done |].
  simpl. unfold tagged_union, select. by rewrite Hdisc.
Qed.

(** X7: a "dates" value that is a string containing the word values, or a
    list holding the string values, passes the membership test of the dates
    discriminator like a mapping with that key: it is routed to [DateList]
    and rejected there as not being a mapping. *)
Theorem values_in_text_routes_to_DateList (d : dict) (v : value) (schema : bool) :
  dict_get "dates" d = Some v ->
  (exists pre post, v = VStr (pre +:+ "values" +:+ post))
  \/ (exists xs, v = VList xs /\ VStr "values" ∈ xs) ->
  _dates_discriminator v = inr "values"
  /\ fails_with (LineError [LKey "dates"; LKey "values"] (ModelType "DateList"))
       (validate env (VDict d) schema).
Proof.
  intros Hget Hv.
  assert (_dates_discriminator v = inr "values") as Hdisc.
  { destruct Hv as [(pre & post & ->)|(xs & -> & Hin)]; unfold _dates_discriminator; simpl.
    - pose proof (index_of_infix pre "values" post) as Hidx.
      destruct (String.index 0 "values" _); [done | by destruct Hidx].
    - assert (existsb (is_str "values") xs = true) as ->; [|done].
      apply existsb_exists. exists (VStr "values").
      split; [by apply list_elem_of_In | done]. }
  split; [done |].
  apply (validate_fails_nested env
           (Field "dates" (tagged_union _dates_discriminator (dates_choices env)) None)
           d v (LineError [LKey "values"] (ModelType "DateList")) schema);
    [field_of_Input | done |].
  simpl. unfold tagged_union, select. rewrite Hdisc.
  unfold dates_choices, tagged_union_choices. simpl. rewrite lookup_insert_eq.
  destruct Hv as [(pre & post & ->)|(xs & -> & _)]; apply list_elem_of_here.
Qed.

(** X8: an "input" value that is not a mapping has no [keys]: the
    [AttributeError] of the input discriminator leaves [validate] before
    anything is printed. *)
Theorem input_without_keys_raises (d : dict) (v : value) (schema : bool) :
  dict_get "input" d = Some v ->
  match v with VNone | VBool _ | VInt _ | VFloat _ | VStr _ | VList _ => True | _ => False end ->
  _input_discriminator v = inl AttributeError
  /\ exists e, validate env (VDict d) schema = ([], inl (PyExn e)).
Proof.
  intros Hget Hshape.
  assert (_input_discriminator v = inl AttributeError) as Hdisc by (by destruct v).
  split; [done |].
  apply (validate_raises_at
           (Field "input" (tagged_union _input_discriminator (input_choices env)) None)
           d v AttributeError schema); [field_of_Input | done |].
  simpl. unfold tagged_union, select. by rewrite Hdisc.
Qed.

(** X9: for the frequency of an interval, that is of a "dates" mapping
    without the key values.  A [ValueError] or an [AssertionError] of
    [frequency_to_timedelta] is reported as a line error at
    dates.interval.frequency and [validate] fails with it; any other
    exception of [frequency_to_timedelta] leaves [validate]. *)
Theorem frequency_errors (d dd : dict) (raw : value) (schema : bool) :
  dict_get "dates" d = Some (VDict dd) -> "values" ∉ keys dd ->
  dict_get "frequency" dd = Some raw ->
  (forall msg, frequency_to_timedelta env raw = inl (ValueError msg) ->
     fails_with (LineError [LKey "dates"; LKey "interval"; LKey "frequency"] (ValueErr msg))
       (validate env (VDict d) schema))
  /\ (forall msg, frequency_to_timedelta env raw = inl (AssertionError msg) ->
        fails_with
          (LineError [LKey "dates"; LKey "interval"; LKey "frequency"] (AssertionErr msg))
          (validate env (VDict d) schema))
  /\ (forall e0, frequency_to_timedelta env raw = inl e0 ->
        match e0 with ValueError _ | AssertionError _ => False | _ => True end ->
        exists e, validate env (VDict d) schema = ([], inl (PyExn e))).
Proof.
  intros Hdates Hvalues Hfreq.
  assert (select _dates_discriminator (dates_choices env) (VDict dd)
          = Selected "interval" (Interval env)) as Hsel.
  { rewrite select_dates. by rewrite bool_decide_eq_false_2. }
  assert (Field "frequency" (before_validator (parse_frequency env) (pyd_timedelta env))
            (Some VNone) ∈ mfields (Interval env)) as Hfield.
  { unfold Interval, Dates, subclass; simpl.
    repeat first [apply list_elem_of_here | apply list_elem_of_further]. }
  assert (forall e, rejects e (before_validator (parse_frequency env) (pyd_timedelta env) raw) ->
            fails_with
              (LineError (LKey "dates" :: LKey "interval" :: LKey "frequency" :: loc e) (kind e))
              (validate env (VDict d) schema)) as Hrej.
  { intros e He.
    apply (validate_fails_nested env
             (Field "dates" (tagged_union _dates_discriminator (dates_choices env)) None)
             d (VDict dd) (LineError (LKey "interval" :: LKey "frequency" :: loc e) (kind e))
             schema); [field_of_Input | done |].
    apply (tagged_union_rejects _ _ _ _ _ (LineError (LKey "frequency" :: loc e) (kind e)) Hsel).
    by apply (validate_model_rejects_nested (Interval env) dd _ raw e Hfield). }
  split; [|split].
  - intros msg Hraise. apply (Hrej (LineError [] (ValueErr msg))).
    unfold before_validator, parse_frequency. rewrite Hraise. apply list_elem_of_here.
  - intros msg Hraise. apply (Hrej (LineError [] (AssertionErr msg))).
    unfold before_validator, parse_frequency. rewrite Hraise. apply list_elem_of_here.
  - intros e0 Hraise Hother.
    destruct (validate_model_raises (Interval env) dd _ e0 Hfield) as [e' Hmodel].
    { unfold validate_field. simpl fname. rewrite Hfreq. simpl.
      unfold before_validator, parse_frequency. rewrite Hraise. by destruct e0. }
    apply (validate_raises_at
             (Field "dates" (tagged_union _dates_discriminator (dates_choices env)) None)
             d (VDict dd) e' schema); [field_of_Input | done |].
    by apply (tagged_union_raises _ _ _ "interval" (Interval env)).
Qed.

End discriminators.

(** ** The normalized dump *)

Lemma validate_fields_entry fs d f k v es acc errs :
  NoDup (fname <$> fs) -> f ∈ fs -> validate_field f d = inr ([(k, v)], es) ->
  validate_fields fs d [] [] = inr (acc, errs) ->
  dict_get k acc = Some v.
Proof.
  intros Hnodup Hin Hf Hrun.
  apply list_elem_of_split in Hin as (pre & post & ->).
  apply (validate_fields_value pre f post d k v es [] [] acc errs); [|done..].
  rewrite fmap_app in Hnodup. apply NoDup_app in Hnodup as (_ & Hpre & _).
  intros Hk. apply (Hpre _ Hk). simpl.
  assert (k = fname f) as ->; [|apply list_elem_of_here].
  unfold validate_field in Hf.
  destruct (dict_get (fname f) d) as [x|];
    [destruct (fvalidate f x) | destruct (fdefault f)]; by simplify_eq.
Qed.

Lemma validate_model_ext_extra m d d' :
  extra_keys m d = extra_keys m d' ->
  (forall f, f ∈ mfields m -> validate_field f d = validate_field f d') ->
  validate_model m (VDict d) = validate_model m (VDict d').
Proof.
  intros Hextra Hext. unfold validate_model.
  rewrite (validate_fields_ext _ d d') by done.
  unfold extra_errors. by rewrite Hextra.
Qed.

Lemma keys_dict_set_new k v d :
  dict_get k d = None -> keys (dict_set k v d) = keys d ++ [k].
Proof.
  unfold keys. induction d as [|[k0 v0] d IH]; [done |].
  cbn [dict_set dict_get]. destruct (decide (k0 = k)); [done |].
  intros Hget. rewrite !fmap_cons. cbn [fst app]. f_equal. by apply IH.
Qed.

Lemma extra_keys_dict_set_field m k v d :
  k ∈ field_names m -> dict_get k d = None ->
  extra_keys m (dict_set k v d) = extra_keys m d.
Proof.
  intros Hfield Hget. unfold extra_keys.
  rewrite (keys_dict_set_new k v d Hget), filter_app.
  rewrite filter_cons_False by (by intros []). apply app_nil_r.
Qed.

Section dump.

Variable env : imports.

Lemma Input_field_names_NoDup : NoDup (fname <$> mfields (Input env)).
Proof. unfold Input, Recipe, create_model, subclass. simpl. compute_done. Qed.

(** X10: in the dump that [validate] prints for an accepted document, a
    field the document omits holds the default of its declaration, and a
    field the document gives holds what the validator of its annotation
    returned for the given value. *)
Theorem dump_holds_defaults_and_validated_values (d : dict) :
  snd (validate env (VDict d) false) = inr true ->
  exists recipe,
    validate env (VDict d) false
    = ([OutText "Validation successful!"; OutJson recipe], inr true)
    /\ forall f, f ∈ mfields (Input env) ->
         match dict_get (fname f) d with
         | None => forall v, fdefault f = Some v -> lookup_path [fname f] recipe = Some v
         | Some raw => forall v, fvalidate f raw = VOk v -> lookup_path [fname f] recipe = Some v
         end.
Proof.
  rewrite validate_eq, init_eq.
  destruct (registered env) as [|? ?]; [done.. |].
  destruct (validate_model (Input env) (VDict d)) as [recipe| |] eqn:Hok; [|done..].
  intros _. exists recipe. split; [done |]. intros f Hin.
  unfold validate_model in Hok.
  destruct (validate_fields (mfields (Input env)) d [] []) as [?|[acc errs]] eqn:Hrun;
    [done |].
  destruct (errs ++ extra_errors (Input env) d); simpl in Hok; [|done]. simplify_eq.
  pose proof (Input_field_names_NoDup) as Hnodup.
  destruct (dict_get (fname f) d) as [raw|] eqn:Hget; intros v Hv; simpl.
  - rewrite (validate_fields_entry _ d f (fname f) v [] acc errs Hnodup Hin); [done | | done].
    unfold validate_field. by rewrite Hget, Hv.
  - rewrite (validate_fields_entry _ d f (fname f) v [] acc errs Hnodup Hin); [done | | done].
    unfold validate_field. by rewrite Hget, Hv.
Qed.

(** X11: the open sections do not reach the dump.  In the dump that
    [validate] prints for an accepted document, a "common" or "sources"
    section given as a mapping is the empty mapping: [Common] declares no
    field and ignores every key, so none of the keys written there is
    kept. *)
Theorem open_sections_are_dumped_empty (d : dict) :
  snd (validate env (VDict d) false) = inr true ->
  exists recipe,
    validate env (VDict d) false
    = ([OutText "Validation successful!"; OutJson recipe], inr true)
    /\ (forall cd, dict_get "common" d = Some (VDict cd) ->
          lookup_path ["common"] recipe = Some (VDict []))
    /\ (forall sd, dict_get "sources" d = Some (VDict sd) ->
          lookup_path ["sources"] recipe = Some (VDict [])).
Proof.
  rewrite validate_eq, init_eq.
  destruct (registered env) as [|? ?]; [done |].
  destruct (validate_model (Input env) (VDict d)) as [recipe| |] eqn:Hok; [|done..].
  intros _. exists recipe. split; [done |].
  unfold validate_model in Hok.
  destruct (validate_fields (mfields (Input env)) d [] []) as [?|[acc errs]] eqn:Hrun;
    [done |].
  destruct (errs ++ extra_errors (Input env) d); simpl in Hok; [|done]. simplify_eq.
  pose proof (Input_field_names_NoDup) as Hnodup.
  split.
  - intros cd Hget. simpl.
    rewrite (validate_fields_entry _ d (Field "common" (validate_model Common) (Some VNone))
               "common" (VDict []) [] acc errs Hnodup); [done | field_of_Input | | done].
    unfold validate_field. simpl fname. by rewrite Hget.
  - intros sd Hget. simpl.
    rewrite (validate_fields_entry _ d (Field "sources" (validate_model Common) (Some VNone))
               "sources" (VDict []) [] acc errs Hnodup); [done | field_of_Input | | done].
    unfold validate_field. simpl fname. by rewrite Hget.
Qed.

(** The field of the model of [init] a section name stands for. *)
Lemma section_field f :
  f ∈ mfields (Input env) ->
  (fname f = "output" ->
     fvalidate f = validate_model (Output env)
     /\ fdefault f = Some (default_instance (Output env)))
  /\ (fname f = "build" ->
        fvalidate f = validate_model (Build env)
        /\ fdefault f = Some (default_instance (Build env)))
  /\ (fname f = "statistics" ->
        fvalidate f = validate_model (Statistics env)
        /\ fdefault f = Some (default_instance (Statistics env))).
Proof.
  unfold Input, Recipe, create_model, subclass. simpl.
  rewrite !elem_of_cons, elem_of_nil. intros Hin.
  destruct_or!; subst; simpl; done.
Qed.

Lemma empty_section_like_omitted name m d schema :
  name ∈ field_names (Input env) ->
  (forall f, f ∈ mfields (Input env) -> fname f = name ->
     fvalidate f = validate_model m /\ fdefault f = Some (default_instance m)) ->
  validate_model m (VDict []) = VOk (default_instance m) ->
  dict_get name d = None ->
  validate env (VDict (dict_set name (VDict []) d)) schema = validate env (VDict d) schema.
Proof.
  intros Hname Hfield Hempty Hget. rewrite !validate_eq.
  destruct (init env) as [|model] eqn:Hinit; [done |].
  rewrite init_eq in Hinit.
  destruct (registered env) as [|? ?]; [done.. |]. simplify_eq.
  rewrite (validate_model_ext_extra (Input env) _ d); [done | |].
  - by apply extra_keys_dict_set_field.
  - intros f Hin. unfold validate_field. rewrite dict_get_set.
    case_decide as Heq; [|done].
    destruct (Hfield f Hin) as [-> ->]; [done |].
    by rewrite Hempty, <- Heq, Hget.
Qed.

(** X12: an "output", "build" or "statistics" mapping without keys is
    accepted and gives the instance the model has with no argument; and a
    document to which such an empty section is added, where it had none,
    makes the same run of [validate] as the document itself. *)
Theorem empty_section_is_the_default (d : dict) (schema : bool) :
  (validate_model (Output env) (VDict []) = VOk (default_instance (Output env))
   /\ validate_model (Build env) (VDict []) = VOk (default_instance (Build env))
   /\ validate_model (Statistics env) (VDict []) = VOk (default_instance (Statistics env)))
  /\ forall name, name ∈ ["output"; "build"; "statistics"] ->
       dict_get name d = None ->
       validate env (VDict (dict_set name (VDict []) d)) schema
       = validate env (VDict d) schema.
Proof.
  split; [done |]. intros name Hname.
  rewrite !elem_of_cons, elem_of_nil in Hname. destruct_or!; try done; subst name.
  - apply (empty_section_like_omitted _ (Output env)); [compute_done | | done].
    intros f Hin. apply (section_field f Hin).
  - apply (empty_section_like_omitted _ (Build env)); [compute_done | | done].
    intros f Hin. apply (section_field f Hin).
  - apply (empty_section_like_omitted _ (Statistics env)); [compute_done | | done].
    intros f Hin. apply (section_field f Hin).
Qed.

End dump.

(** ** The unions of [init] *)

Lemma foldl_insert_lookup_other (post : list (string * model)) k : forall t : gmap string model,
  k ∉ post.*1 -> foldl (fun t c => <[c.1 := c.2]> t) t post !! k = t !! k.
Proof.
  induction post as [|[k' m'] post IH]; intros t Hk; simpl; [done |].
  rewrite fmap_cons, not_elem_of_cons in Hk. destruct Hk as [Hne Hk].
  rewrite IH by done. simpl. by rewrite lookup_insert_ne.
Qed.

(** Of the choices with one tag, the last one is in the table. *)
Lemma tagged_union_choices_last cs k m post :
  k ∉ post.*1 -> tagged_union_choices (cs ++ (k, m) :: post) !! k = Some m.
Proof.
  intros Hk. unfold tagged_union_choices. rewrite foldl_app. simpl.
  rewrite foldl_insert_lookup_other by done. apply lookup_insert_eq.
Qed.

Lemma validate_items_grows item xs : forall i acc errs acc' errs',
  validate_items item xs i acc errs = inr (acc', errs') -> exists es, errs' = errs ++ es.
Proof.
  induction xs as [|x xs IH]; simpl; intros i acc errs acc' errs' Hrun.
  - simplify_eq. exists []. by rewrite app_nil_r.
  - destruct (item x) as [v|es|e]; [by eapply IH | | done].
    apply IH in Hrun as [es' ->]. eexists. by rewrite <- app_assoc.
Qed.

(** What the validator of the items rejects at position [j], the list
    rejects under that position. *)
Lemma list_of_rejects item xs j x e :
  xs !! j = Some x -> rejects e (item x) ->
  rejects (with_outer_location (LIdx j) e) (list_of item (VList xs)).
Proof.
  intros Hj Hrej. unfold list_of.
  assert (forall i acc errs,
            match validate_items item xs i acc errs with
            | inl _ => True
            | inr (_, errs') => with_outer_location (LIdx (i + j)) e ∈ errs'
            end) as Hloop.
  { revert j Hj. induction xs as [|x0 xs IH]; intros j Hj i acc errs; [done |].
    simpl. destruct j as [|j]; simpl in Hj.
    - simplify_eq. destruct (item x) as [|es|] eqn:Hx; simpl in Hrej; [done | | done].
      destruct (validate_items item xs (S i) acc _) as [|[acc' errs']] eqn:Hrun; [done |].
      apply validate_items_grows in Hrun as [es' ->].
      rewrite Nat.add_0_r, !elem_of_app, list_elem_of_fmap. left. right. by exists e.
    - replace (i + S j) with (S i + j) by lia.
      destruct (item x0); [apply (IH j Hj).. | done]. }
  specialize (Hloop 0 [] []).
  destruct (validate_items item xs 0 [] []) as [|[acc errs]]; [done |].
  by apply rejects_finish.
Qed.

(** A model with one required field and open to other keys reads an object
    through that field alone. *)
Lemma single_field_model_first_key name k validator v rest :
  validate_model (create_model name BaseModel [Field k validator None]) (VDict ((k, v) :: rest))
  = validate_model (create_model name BaseModel [Field k validator None]) (VDict [(k, v)]).
Proof.
  unfold validate_model, create_model, subclass, validate_field. simpl.
  unfold validate_field. simpl. by rewrite !decide_True.
Qed.

Section unions.

Variable env : imports.

Lemma registered_last pre k schema post :
  function_schemas env "sources" ++ function_schemas env "filters"
  = pre ++ (k, schema) :: post ->
  k ∉ post.*1 ->
  tagged_union_choices (registered env) !! k = Some (step_model k schema).
Proof.
  intros Hreg Hk. unfold registered, step_models.
  rewrite <- fmap_app, Hreg, fmap_app, fmap_cons.
  apply tagged_union_choices_last.
  rewrite <- list_fmap_compose. intros Hin. apply Hk.
  apply list_elem_of_fmap in Hin as [[name s] [-> Hin]].
  apply list_elem_of_fmap. by exists (name, s).
Qed.

Lemma select_combinator v rest :
  select _input_discriminator (input_choices env) (VDict (("pipe", v) :: rest))
  = Selected "pipe" (Pipe env)
  /\ select _input_discriminator (input_choices env) (VDict (("dates", v) :: rest))
     = Selected "dates" (Dates_join env)
  /\ select _input_discriminator (input_choices env) (VDict (("concat", v) :: rest))
     = Selected "concat" (Concat env)
  /\ select _input_discriminator (input_choices env) (VDict (("join", v) :: rest))
     = Selected "join" (Join env).
Proof.
  rewrite !select_first_key. unfold input_choices.
  change [("concat", Concat env); ("join", Join env)]
    with ([("concat", Concat env)] ++ [("join", Join env)]).
  rewrite app_assoc, !tagged_union_choices_snoc.
  repeat split.
  - rewrite !lookup_insert_ne by done. by rewrite lookup_insert_eq.
  - rewrite !lookup_insert_ne by done. by rewrite lookup_insert_eq.
  - rewrite !lookup_insert_ne by done. by rewrite lookup_insert_eq.
  - by rewrite lookup_insert_eq.
Qed.

(** X13: at the "input" field the four combinator tags always select the
    combinators: an object whose first key is pipe, dates, concat or join is
    validated as [Pipe], as the dates-and-join model, as [Concat] or as
    [Join], also when the registry holds a step of that name. *)
Theorem combinators_shadow_registered_names (v : value) (rest : dict) :
  select _input_discriminator (input_choices env) (VDict (("pipe", v) :: rest))
  = Selected "pipe" (Pipe env)
  /\ select _input_discriminator (input_choices env) (VDict (("dates", v) :: rest))
     = Selected "dates" (Dates_join env)
  /\ select _input_discriminator (input_choices env) (VDict (("concat", v) :: rest))
     = Selected "concat" (Concat env)
  /\ select _input_discriminator (input_choices env) (VDict (("join", v) :: rest))
     = Selected "join" (Join env).
Proof. apply select_combinator. Qed.

(** X14: of the registrations of a name, sources first and filters after
    them, the last one decides: its model is the one selected for the name
    among the simple steps, and at the "input" field too unless the name is
    a combinator tag. *)
Theorem last_registration_wins (pre post : list (string * option validator))
    (k : string) (schema : option validator) (v : value) (rest : dict) :
  function_schemas env "sources" ++ function_schemas env "filters"
  = pre ++ (k, schema) :: post ->
  k ∉ post.*1 ->
  select _input_discriminator (registered env) (VDict ((k, v) :: rest))
  = Selected k (step_model k schema)
  /\ (k ∉ combinator_tags ->
      select _input_discriminator (input_choices env) (VDict ((k, v) :: rest))
      = Selected k (step_model k schema)).
Proof.
  intros Hreg Hk. rewrite !select_first_key.
  pose proof (registered_last pre k schema post Hreg Hk) as Hlast.
  split; [by rewrite Hlast |].
  intros Htags. by rewrite input_choices_lookup, Hlast.
Qed.

(** The three unions for the items of the combinators reject a key that is
    neither registered nor one of their tags. *)
Lemma items_reject_unknown_tag k v more :
  k ∉ registered_names env ->
  simple_steps env (VDict ((k, v) :: more)) = VErrors [LineError [] (UnionTagInvalid k)]
  /\ (k <> "pipe" ->
      simple_steps_and_pipe env (VDict ((k, v) :: more))
      = VErrors [LineError [] (UnionTagInvalid k)])
  /\ (k ∉ ["pipe"; "dates"] ->
      simple_steps_and_dates env (VDict ((k, v) :: more))
      = VErrors [LineError [] (UnionTagInvalid k)]).
Proof.
  intros Hunreg. rewrite <- registered_tags in Hunreg.
  apply tagged_union_choices_None in Hunreg.
  unfold simple_steps, simple_steps_and_pipe, simple_steps_and_dates, tagged_union.
  rewrite !select_first_key, !tagged_union_choices_snoc.
  split; [by rewrite Hunreg |]. split.
  - intros Hne. by rewrite lookup_insert_ne, Hunreg.
  - rewrite !not_elem_of_cons. intros (? & ? & _).
    by rewrite !lookup_insert_ne, Hunreg.
Qed.

(** An item rejected inside the list of a combinator at the "input" field. *)
Lemma combinator_item_fails tag m item d items rest i x e schema :
  select _input_discriminator (input_choices env) (VDict ((tag, VList items) :: rest))
  = Selected tag m ->
  m = create_model (mname m) BaseModel [Field tag (list_of item) None] ->
  dict_get "input" d = Some (VDict ((tag, VList items) :: rest)) ->
  items !! i = Some x -> rejects e (item x) ->
  fails_with (LineError (LKey "input" :: LKey tag :: LKey tag :: LIdx i :: loc e) (kind e))
    (validate env (VDict d) schema).
Proof.
  intros Hsel Hm Hget Hi Hrej.
  apply (validate_fails_nested env
           (Field "input" (tagged_union _input_discriminator (input_choices env)) None)
           d (VDict ((tag, VList items) :: rest))
           (LineError (LKey tag :: LKey tag :: LIdx i :: loc e) (kind e)) schema);
    [field_of_Input | done |].
  apply (tagged_union_rejects _ _ _ tag m
           (LineError (LKey tag :: LIdx i :: loc e) (kind e)) Hsel).
  rewrite Hm.
  apply (validate_model_rejects_nested _ ((tag, VList items) :: rest)
           (Field tag (list_of item) None) (VList items)
           (LineError (LIdx i :: loc e) (kind e))).
  - apply list_elem_of_here.
  - simpl. by rewrite decide_True.
  - by apply (list_of_rejects item items i x e).
Qed.

(** X15: what the lists of the combinators do not hold.  An item whose
    first key is not registered is rejected with an invalid-tag error at its
    position: in a pipe whatever the key, so pipes do not nest; in a join
    unless the key is pipe, so a join holds no dates block, concat or join;
    in a concat unless the key is pipe or dates, so a concat holds no concat
    or join. *)
Theorem combinator_items_are_restricted
    (d rest more : dict) (steps : list value) (i : nat) (k : string) (v : value)
    (schema : bool) :
  k ∉ registered_names env ->
  steps !! i = Some (VDict ((k, v) :: more)) ->
  (dict_get "input" d = Some (VDict (("pipe", VList steps) :: rest)) ->
     fails_with
       (LineError [LKey "input"; LKey "pipe"; LKey "pipe"; LIdx i] (UnionTagInvalid k))
       (validate env (VDict d) schema))
  /\ (dict_get "input" d = Some (VDict (("join", VList steps) :: rest)) -> k <> "pipe" ->
        fails_with
          (LineError [LKey "input"; LKey "join"; LKey "join"; LIdx i] (UnionTagInvalid k))
          (validate env (VDict d) schema))
  /\ (dict_get "input" d = Some (VDict (("concat", VList steps) :: rest)) ->
        k ∉ ["pipe"; "dates"] ->
        fails_with
          (LineError [LKey "input"; LKey "concat"; LKey "concat"; LIdx i] (UnionTagInvalid k))
          (validate env (VDict d) schema)).
Proof.
  intros Hunreg Hi.
  destruct (items_reject_unknown_tag k v more Hunreg) as (Hsimple & Hpipe & Hdates).
  destruct (select_combinator (VList steps) rest) as (Hsel_pipe & _ & Hsel_concat & Hsel_join).
  split; [|split].
  - intros Hget.
    apply (combinator_item_fails "pipe" (Pipe env) (simple_steps env) d steps rest i
             (VDict ((k, v) :: more))
             (LineError [] (UnionTagInvalid k)) schema Hsel_pipe); [done.. |].
    rewrite Hsimple. apply list_elem_of_here.
  - intros Hget Hne.
    apply (combinator_item_fails "join" (Join env) (simple_steps_and_pipe env) d steps rest i
             (VDict ((k, v) :: more))
             (LineError [] (UnionTagInvalid k)) schema Hsel_join); [done.. |].
    rewrite Hpipe by done. apply list_elem_of_here.
  - intros Hget Hne.
    apply (combinator_item_fails "concat" (Concat env) (simple_steps_and_dates env) d steps
             rest i (VDict ((k, v) :: more)) (LineError [] (UnionTagInvalid k)) schema Hsel_concat); [done.. |].
    rewrite Hdates by done. apply list_elem_of_here.
Qed.

End unions.

Section steps.

Variable env : imports.

(** X16: an "input" object whose first key is dates is the dates-and-join
    block.  Its "dates" mapping is validated as an [Interval] without any
    discriminator, so a key that [Interval] does not declare, and "values"
    is one, is reported as an extra field; and its "join" key is required. *)
Theorem dates_block_needs_interval_and_join (d dd rest : dict) (schema : bool) :
  dict_get "input" d = Some (VDict (("dates", VDict dd) :: rest)) ->
  (forall k, k ∈ keys dd -> k ∉ field_names (Interval env) ->
     fails_with (LineError [LKey "input"; LKey "dates"; LKey "dates"; LKey k] ExtraForbidden)
       (validate env (VDict d) schema))
  /\ ("values" ∉ field_names (Interval env))
  /\ (dict_get "join" rest = None ->
      fails_with (LineError [LKey "input"; LKey "dates"; LKey "join"] Missing)
        (validate env (VDict d) schema)).
Proof.
  intros Hget.
  destruct (select_combinator env (VDict dd) rest) as (_ & Hsel & _).
  assert (forall e, rejects e (validate_model (Dates_join env) (VDict (("dates", VDict dd) :: rest))) ->
            fails_with (LineError (LKey "input" :: LKey "dates" :: loc e) (kind e))
              (validate env (VDict d) schema)) as Hblock.
  { intros e He.
    apply (validate_fails_nested env
             (Field "input" (tagged_union _input_discriminator (input_choices env)) None)
             d (VDict (("dates", VDict dd) :: rest))
             (LineError (LKey "dates" :: loc e) (kind e)) schema);
      [field_of_Input | done |].
    by apply (tagged_union_rejects _ _ _ "dates" (Dates_join env) e Hsel). }
  split; [|split].
  - intros k Hk Hunknown.
    apply (Hblock (LineError [LKey "dates"; LKey k] ExtraForbidden)).
    apply (validate_model_rejects_nested (Dates_join env) (("dates", VDict dd) :: rest)
             (Field "dates" (validate_model (Interval env)) None) (VDict dd)
             (LineError [LKey k] ExtraForbidden));
      [apply list_elem_of_here | done |].
    by apply validate_model_rejects_extra.
  - compute_done.
  - intros Hjoin.
    apply (Hblock (LineError [LKey "join"] Missing)).
    apply (validate_model_rejects_missing (Dates_join env) (("dates", VDict dd) :: rest)
             (Field "join" (list_of (simple_steps_and_pipe env)) None));
      [apply list_elem_of_further, list_elem_of_here | | done].
    done.
Qed.

(** X17: at the "input" field an object is read through its first key
    alone, unless that key is dates: the other keys change neither the
    choice nor the result.  So a join or a registered step written before a
    "dates" key makes that key ignored. *)
Theorem input_object_is_read_through_first_key (k : string) (v : value) (rest : dict) :
  k <> "dates" ->
  tagged_union _input_discriminator (input_choices env) (VDict ((k, v) :: rest))
  = tagged_union _input_discriminator (input_choices env) (VDict [(k, v)]).
Proof.
  intros Hne. unfold tagged_union. rewrite !select_first_key.
  destruct (tagged_union_choices (input_choices env) !! k) as [m|] eqn:Hm; [|done].
  f_equal. apply tagged_union_choices_Some in Hm.
  unfold input_choices in Hm.
  rewrite !elem_of_app, !elem_of_cons, elem_of_nil in Hm.
  destruct Hm as [[[Hreg|[Heq|[]]]|[Heq|[]]]|[Heq|[Heq|[]]]].
  - apply registered_step in Hreg as [schema [-> _]].
    apply step_model_first_key.
  - injection Heq as -> ->. apply (single_field_model_first_key "Pipe" "pipe").
  - by injection Heq as -> ->.
  - injection Heq as -> ->. apply (single_field_model_first_key "Concat" "concat").
  - injection Heq as -> ->. apply (single_field_model_first_key "Join" "join").
Qed.

(** X18: for a name whose deciding registration declares no schema, and
    which is not a combinator tag.  When the name does not start with an
    underscore, an "input" object with that first key and a mapping under
    it is accepted as it is, without the other keys of the object; with
    anything else under the key it is rejected as not a mapping, and
    [validate] fails with that error.  When the name starts with an
    underscore, the model of the step has no field: the object is accepted
    whatever it holds under the key, and the instance is empty. *)
Theorem schemaless_step_takes_any_mapping (pre post : list (string * option validator))
    (k : string) (v : value) (rest : dict) :
  function_schemas env "sources" ++ function_schemas env "filters"
  = pre ++ (k, None) :: post ->
  k ∉ post.*1 -> k ∉ combinator_tags ->
  (is_valid_field_name k = true ->
     (forall body, v = VDict body ->
        tagged_union _input_discriminator (input_choices env) (VDict ((k, v) :: rest))
        = VOk (VDict [(k, VDict body)]))
     /\ ((forall body, v <> VDict body) ->
         tagged_union _input_discriminator (input_choices env) (VDict ((k, v) :: rest))
         = VErrors [LineError [LKey k; LKey k] DictType]
         /\ forall d schema,
              dict_get "input" d = Some (VDict ((k, v) :: rest)) ->
              fails_with (LineError [LKey "input"; LKey k; LKey k] DictType)
                (validate env (VDict d) schema)))
  /\ (is_valid_field_name k = false ->
      tagged_union _input_discriminator (input_choices env) (VDict ((k, v) :: rest))
      = VOk (VDict [])).
Proof.
  intros Hreg Hk Htags.
  assert (tagged_union _input_discriminator (input_choices env) (VDict ((k, v) :: rest))
          = outer (LKey k) (validate_model (step_model k None) (VDict [(k, v)]))) as Hunion.
  { unfold tagged_union. rewrite select_first_key, input_choices_lookup by done.
    rewrite (registered_last env pre k None post Hreg Hk). f_equal.
    apply step_model_first_key. }
  split.
  - intros Hvalid.
    assert (validate_model (step_model k None) (VDict [(k, v)])
            = match v with
              | VDict body => VOk (VDict [(k, v)])
              | _ => VErrors [LineError [LKey k] DictType]
              end) as Hstep.
    { unfold validate_model, step_model, create_model, subclass. rewrite Hvalid. simpl.
      unfold validate_field. simpl. rewrite decide_True by done. by destruct v. }
    split.
    + intros body ->. by rewrite Hunion, Hstep.
    + intros Hnot.
      assert (tagged_union _input_discriminator (input_choices env) (VDict ((k, v) :: rest))
              = VErrors [LineError [LKey k; LKey k] DictType]) as Hrejected.
      { rewrite Hunion, Hstep. destruct v; try done. by destruct (Hnot items). }
      split; [done |]. intros d schema Hget.
      apply (validate_fails_nested env
               (Field "input" (tagged_union _input_discriminator (input_choices env)) None)
               d (VDict ((k, v) :: rest)) (LineError [LKey k; LKey k] DictType) schema);
        [field_of_Input | done |].
      simpl fvalidate. rewrite Hrejected. apply list_elem_of_here.
  - intros Hprivate. rewrite Hunion.
    unfold validate_model, step_model, create_model, subclass. by rewrite Hprivate.
Qed.

End steps.

(** ** The order of the keys of a document *)

Lemma dict_get_Some_elem_of k v d :
  NoDup (keys d) -> dict_get k d = Some v <-> (k, v) ∈ d.
Proof.
  unfold keys. induction d as [|[k0 v0] d IH]; simpl.
  - intros _. split; [done | by intros ?%elem_of_nil].
  - rewrite NoDup_cons, elem_of_cons. intros [Hk0 Hnodup].
    destruct (decide (k0 = k)) as [->|Hne].
    + split; [intros [= ->]; by left |].
      intros [[= ->]|Hin]; [done |]. destruct Hk0.
      apply list_elem_of_fmap. by exists (k, v).
    + rewrite IH by done. split; [by right | intros [[= ? ?]|?]; done].
Qed.

Lemma dict_get_Permutation k d d' :
  NoDup (keys d) -> d ≡ₚ d' -> dict_get k d = dict_get k d'.
Proof.
  intros Hnodup Hperm.
  assert (NoDup (keys d')) as Hnodup' by (unfold keys in *; by rewrite <- Hperm).
  apply option_eq. intros v.
  rewrite !dict_get_Some_elem_of by done. by rewrite Hperm.
Qed.

Section key_order.

Variable env : imports.

(** X19: the order of the top-level keys of a document does not matter.
    Two documents with the same entries in another order make [validate]
    return the same value or raise the same exception, and when it returns
    true the two runs print the same lines. *)
Theorem top_level_key_order_is_irrelevant (d d' : dict) (schema : bool) :
  NoDup (keys d) -> d ≡ₚ d' ->
  snd (validate env (VDict d) schema) = snd (validate env (VDict d') schema)
  /\ (snd (validate env (VDict d) schema) = inr true ->
      validate env (VDict d) schema = validate env (VDict d') schema).
Proof.
  intros Hnodup Hperm. rewrite !validate_eq, init_eq.
  destruct (registered env) as [|? ?]; [done.. |].
  unfold validate_model.
  rewrite (validate_fields_ext _ d d').
  2:{ intros f _. unfold validate_field. by rewrite (dict_get_Permutation _ d d'). }
  destruct (validate_fields (mfields (Input env)) d' [] []) as [e|[acc errs]]; [done |].
  assert (errs ++ extra_errors (Input env) d ≡ₚ errs ++ extra_errors (Input env) d') as Herrs.
  { unfold extra_errors, extra_keys, keys. simpl. by rewrite Hperm. }
  destruct (errs ++ extra_errors (Input env) d) as [|e1 es1],
           (errs ++ extra_errors (Input env) d') as [|e2 es2]; simpl; try done.
  - by apply Permutation_nil_cons in Herrs.
  - symmetry in Herrs. by apply Permutation_nil_cons in Herrs.
Qed.

End key_order.

(** ** The further properties on concrete documents *)

Lemma schema_flag_only_changes_success_line_witness :
  validate reference.env reference.minimal true = validate reference.env reference.minimal false.
Proof.
  apply (proj2 (schema_flag_only_changes_success_line reference.env reference.minimal)).
  vm_compute. discriminate.
Defined.

Lemma validate_needs_a_mapping_witness :
  validate reference.env (VList [reference.minimal]) false = ([], inl (PyExn TypeError)).
Proof. apply validate_needs_a_mapping. discriminate. Defined.

Lemma validate_needs_a_registry_witness :
  init reference.unregistered = inl TypeError
  /\ validate reference.unregistered reference.minimal_with_input false
     = ([], inl (PyExn TypeError)).
Proof. apply validate_needs_a_registry; reflexivity. Defined.

Lemma dates_is_required_witness :
  fails_with (LineError [LKey "dates"] Missing)
    (validate reference.env (VDict [("input", reference.mars_step)]) false).
Proof. apply dates_is_required. reflexivity. Defined.

Lemma scalar_dates_raises_witness :
  _dates_discriminator (VInt 2020) = inl TypeError
  /\ exists e,
       validate reference.env (VDict [("dates", VInt 2020); ("input", reference.mars_step)]) false
       = ([], inl (PyExn e)).
Proof.
  apply (scalar_dates_raises reference.env
           [("dates", VInt 2020); ("input", reference.mars_step)] (VInt 2020) false);
    [reflexivity | exact I].
Defined.

Lemma values_in_text_routes_to_DateList_witness :
  _dates_discriminator (VStr "no values yet") = inr "values"
  /\ fails_with (LineError [LKey "dates"; LKey "values"] (ModelType "DateList"))
       (validate reference.env
          (VDict [("dates", VStr "no values yet"); ("input", reference.mars_step)]) false).
Proof.
  apply (values_in_text_routes_to_DateList reference.env
           [("dates", VStr "no values yet"); ("input", reference.mars_step)]
           (VStr "no values yet") false); [reflexivity |].
  left. exists "no ", " yet". reflexivity.
Defined.

Lemma input_without_keys_raises_witness :
  _input_discriminator (VStr "mars") = inl AttributeError
  /\ exists e,
       validate reference.env (VDict (reference.with_input (VStr "mars"))) false
       = ([], inl (PyExn e)).
Proof.
  apply (input_without_keys_raises reference.env (reference.with_input (VStr "mars"))
           (VStr "mars") false); [reflexivity | exact I].
Defined.

Lemma frequency_errors_witness :
  fails_with
    (LineError [LKey "dates"; LKey "interval"; LKey "frequency"]
       (ValueErr "Cannot convert frequency to timedelta"))
    (validate reference.env
       (VDict [("dates", VDict [("frequency", VStr "sometimes")]);
               ("input", reference.mars_step)]) false)
  /\ exists e,
       validate reference.env
         (VDict [("dates", VDict [("frequency", VNone)]); ("input", reference.mars_step)]) false
       = ([], inl (PyExn e)).
Proof.
  split.
  - apply (proj1 (frequency_errors reference.env
                    [("dates", VDict [("frequency", VStr "sometimes")]);
                     ("input", reference.mars_step)]
                    [("frequency", VStr "sometimes")] (VStr "sometimes") false
                    eq_refl ltac:(compute_done) eq_refl)).
    reflexivity.
  - apply (proj2 (proj2 (frequency_errors reference.env
                    [("dates", VDict [("frequency", VNone)]); ("input", reference.mars_step)]
                    [("frequency", VNone)] VNone false
                    eq_refl ltac:(compute_done) eq_refl)) TypeError); [reflexivity | exact I].
Defined.

Lemma dump_holds_defaults_and_validated_values_witness :
  exists recipe,
    validate reference.env reference.minimal_with_input false
    = ([OutText "Validation successful!"; OutJson recipe], inr true)
    /\ forall f, f ∈ mfields (Input reference.env) ->
         match dict_get (fname f) (reference.with_input reference.mars_step) with
         | None => forall v, fdefault f = Some v -> lookup_path [fname f] recipe = Some v
         | Some raw => forall v, fvalidate f raw = VOk v -> lookup_path [fname f] recipe = Some v
         end.
Proof.
  apply (dump_holds_defaults_and_validated_values reference.env
           (reference.with_input reference.mars_step)).
  vm_compute. reflexivity.
Defined.

Lemma open_sections_are_dumped_empty_witness :
  exists recipe,
    validate reference.env
      (VDict (("common", VDict [("grid", VStr "o96")]) ::
              ("sources", VDict [("era5", VDict [])]) ::
              reference.with_input reference.mars_step)) false
    = ([OutText "Validation successful!"; OutJson recipe], inr true)
    /\ lookup_path ["common"] recipe = Some (VDict [])
    /\ lookup_path ["sources"] recipe = Some (VDict []).
Proof.
  destruct (open_sections_are_dumped_empty reference.env
              (("common", VDict [("grid", VStr "o96")]) ::
               ("sources", VDict [("era5", VDict [])]) ::
               reference.with_input reference.mars_step))
    as (recipe & Hrun & Hcommon & Hsources); [vm_compute; reflexivity |].
  exists recipe. split; [exact Hrun |].
  split; [by eapply Hcommon | by eapply Hsources].
Defined.

Lemma empty_section_is_the_default_witness :
  validate reference.env
    (VDict (dict_set "output" (VDict []) (reference.with_input reference.mars_step))) false
  = validate reference.env reference.minimal_with_input false.
Proof.
  apply (proj2 (empty_section_is_the_default reference.env
                  (reference.with_input reference.mars_step) false) "output");
    [compute_done | reflexivity].
Defined.

Lemma last_registration_wins_witness :
  select _input_discriminator (registered reference.twice) (VDict [("empty", VStr "x")])
  = Selected "empty" (step_model "empty" (Some (pyd_str reference.env)))
  /\ select _input_discriminator (input_choices reference.twice) (VDict [("empty", VStr "x")])
     = Selected "empty" (step_model "empty" (Some (pyd_str reference.env))).
Proof.
  destruct (last_registration_wins reference.twice
              [("mars", None); ("empty", None)] [("rename", None)]
              "empty" (Some (pyd_str reference.env)) (VStr "x") [])
    as [Hsimple Hinput]; [reflexivity | compute_done |].
  split; [exact Hsimple | apply Hinput; compute_done].
Defined.

Lemma combinator_items_are_restricted_witness :
  fails_with
    (LineError [LKey "input"; LKey "pipe"; LKey "pipe"; LIdx 1] (UnionTagInvalid "pipe"))
    (validate reference.env
       (VDict (reference.with_input
                 (VDict [("pipe", VList [reference.mars_step;
                                         VDict [("pipe", VList [reference.mars_step])]])])))
       false).
Proof.
  apply (proj1 (combinator_items_are_restricted reference.env
                  (reference.with_input
                     (VDict [("pipe", VList [reference.mars_step;
                                             VDict [("pipe", VList [reference.mars_step])]])]))
                  [] [] [reference.mars_step; VDict [("pipe", VList [reference.mars_step])]]
                  1 "pipe" (VList [reference.mars_step]) false
                  ltac:(compute_done) eq_refl)).
  reflexivity.
Defined.

Lemma dates_block_needs_interval_and_join_witness :
  fails_with
    (LineError [LKey "input"; LKey "dates"; LKey "dates"; LKey "values"] ExtraForbidden)
    (validate reference.env
       (VDict (reference.with_input
                 (VDict [("dates", VDict [("values", VList [])]);
                         ("join", VList [reference.mars_step])]))) false).
Proof.
  apply (proj1 (dates_block_needs_interval_and_join reference.env
                  (reference.with_input
                     (VDict [("dates", VDict [("values", VList [])]);
                             ("join", VList [reference.mars_step])]))
                  [("values", VList [])] [("join", VList [reference.mars_step])] false
                  eq_refl)); compute_done.
Defined.

Lemma input_object_is_read_through_first_key_witness :
  tagged_union _input_discriminator (input_choices reference.env)
    (VDict [("join", VList [reference.mars_step]); ("dates", reference.minimal_dates)])
  = tagged_union _input_discriminator (input_choices reference.env)
      (VDict [("join", VList [reference.mars_step])]).
Proof. apply input_object_is_read_through_first_key. discriminate. Defined.

Lemma schemaless_step_takes_any_mapping_witness :
  tagged_union _input_discriminator (input_choices reference.env)
    (VDict [("mars", VDict [("param", VStr "2t")]); ("grid", VStr "o96")])
  = VOk (VDict [("mars", VDict [("param", VStr "2t")])])
  /\ tagged_union _input_discriminator (input_choices reference.env)
       (VDict [("mars", VStr "2t")])
     = VErrors [LineError [LKey "mars"; LKey "mars"] DictType]
  /\ tagged_union _input_discriminator (input_choices reference.unusual)
       (VDict [("_scratch", VInt 3)])
     = VOk (VDict []).
Proof.
  split; [|split].
  - apply (proj1 (proj1 (schemaless_step_takes_any_mapping reference.env
                    [] [("grib", None); ("rename", None)] "mars"
                    (VDict [("param", VStr "2t")]) [("grid", VStr "o96")]
                    eq_refl ltac:(compute_done) ltac:(compute_done)) eq_refl)
             [("param", VStr "2t")] eq_refl).
  - apply (proj2 (proj1 (schemaless_step_takes_any_mapping reference.env
                    [] [("grib", None); ("rename", None)] "mars" (VStr "2t") []
                    eq_refl ltac:(compute_done) ltac:(compute_done)) eq_refl)).
    discriminate.
  - apply (proj2 (schemaless_step_takes_any_mapping reference.unusual
                    [("pipe", None)] [("mars", None)] "_scratch" (VInt 3) []
                    eq_refl ltac:(compute_done) ltac:(compute_done)) eq_refl).
Defined.

Lemma top_level_key_order_is_irrelevant_witness :
  validate reference.env (VDict [("input", reference.mars_step);
                                 ("dates", reference.minimal_dates)]) false
  = validate reference.env reference.minimal_with_input false.
Proof.
  symmetry.
  apply (proj2 (top_level_key_order_is_irrelevant reference.env
                  (reference.with_input reference.mars_step)
                  [("input", reference.mars_step); ("dates", reference.minimal_dates)] false
                  ltac:(compute_done) (perm_swap _ _ []))).
  vm_compute. reflexivity.
Defined.
